(** * Web push bootstrap of the africash site: src/lib/push-notifications.ts

    A shallow embedding of the module that registers a browser with the
    push-messaging client and the backend device registry, and of the
    foreground notifier it wires.

    Conventions of the embedding.
    - The two module-level variables ([isInitialized], [registrationToken])
      are a record that every function threads explicitly.
    - Everything the module does to its host (console output, reads of
      browser globals, calls to the messaging client, to the api client
      and to the Notification/window objects) is an [Event]; a computation
      returns the events it emitted, oldest first.
    - The host answers through two records: [Env] for what the browser
      globals hold, [World] for how each collaborator call ends.  Each
      collaborator is called at most once per run, so one outcome per
      collaborator describes a run.
    - A promise may also never settle ([Pending]); the function awaiting
      it then stops there ([Suspended]), with the state and the trace it
      had reached.
    - A [string] is a JavaScript string whose UTF-16 code units are all
      below 256 (ASCII in particular, as the tokens and the texts of the
      module are), one character per code unit, so that [length] and
      [substring] are those of JavaScript.
    - Console messages keep the source text from [[TEST LOG]] on; the
      pictograph in front of it and the ISO timestamps are left out. *)

From Stdlib Require Import String Ascii List Bool ZArith Lia DecimalString.
From Stdlib Require DecimalPos DecimalZ.
From stdpp Require Import base option gmap strings.
Import ListNotations.
Local Open Scope string_scope.

(** ** JavaScript values the module handles *)

Module Js.

(** A thrown value: an [Error] instance (message and stack), or anything
    else (a string, [undefined], ...). *)
Inductive Thrown : Type :=
| ErrorObject (message : string) (stack : option string)
| OtherValue (repr : string).

(** A promise as the awaiting code sees it. *)
Inductive Promise (A : Type) : Type :=
| Fulfilled (a : A)
| Rejected (e : Thrown)
| Pending.
Arguments Fulfilled {A} a.
Arguments Rejected {A} e.
Arguments Pending {A}.

(** The end of a synchronous call. *)
Inductive Sync (A : Type) : Type :=
| Returns (a : A)
| Throws (e : Thrown).
Arguments Returns {A} a.
Arguments Throws {A} e.

(** Truthiness of a string: every string but the empty one. *)
Definition truthy (s : string) : bool :=
  match s with EmptyString => false | String _ _ => true end.

(** [o || d] for an optional string [o]: [undefined] and the empty string
    both give [d]. *)
Definition or_default (o : option string) (d : string) : string :=
  match o with
  | Some s => if truthy s then s else d
  | None => d
  end.

(** Decimal rendering of a number inside a template literal. *)
Definition nat_to_string (n : nat) : string :=
  NilZero.string_of_uint (Nat.to_uint n).
Definition Z_to_string (z : Z) : string :=
  NilZero.string_of_int (Z.to_int z).

(** The one-character string holding a double quote. *)
Definition double_quote : string :=
  String (Ascii.ascii_of_nat 34) EmptyString.

(** [s.substring(0, n)]: the first [n] code units of [s], all of [s]
    when it is shorter. *)
Definition substring0 (n : nat) (s : string) : string :=
  String.substring 0 n s.

End Js.
Import Js.

(** ** The host: browser globals and collaborators *)

Inductive NotificationPermission : Type :=
| PermDefault | PermGranted | PermDenied.

Definition permission_eqb (p q : NotificationPermission) : bool :=
  match p, q with
  | PermDefault, PermDefault | PermGranted, PermGranted
  | PermDenied, PermDenied => true
  | _, _ => false
  end.

Definition permission_name (p : NotificationPermission) : string :=
  match p with
  | PermDefault => "default"
  | PermGranted => "granted"
  | PermDenied => "denied"
  end.

(** The [window] global, as far as the module looks at it.
    [Notification_global] is [None] when ['Notification' in window] is
    false, and otherwise holds the live [Notification.permission]. *)
Record Window : Type := {
  PushManager_in_window : bool;
  Notification_global : option NotificationPermission;
  isSecureContext : bool
}.

(** The [navigator] global, as far as the module looks at it. *)
Record Navigator : Type := {
  serviceWorker_in_navigator : bool;
  userAgent : string
}.

(** The two globals the module names, each declared or not,
    independently of the other: [window = None] stands for
    [typeof window === 'undefined'] (server-side render, worker), and
    [navigator = None] for a host that does not declare [navigator] (a
    server-side runtime, also one with a [window] shim), where naming it
    throws a ReferenceError. *)
Record Env : Type := {
  window : option Window;
  navigator : option Navigator
}.

(** The registration object a service-worker registration resolves to;
    only its being non-null matters to the module. *)
Record ServiceWorkerRegistration : Type := { scope : string }.

(** The JSON body posted to the device registry. *)
Record DeviceBody : Type := { registration_id : string; type_ : string }.

(** How each collaborator call of a run of the initializer ends.  The
    messaging client ([fcmService], in lib/firebase) and the api client
    (lib/api) are used through the types the module gives them:
    [registerServiceWorker()], [initialize()], [import('./api')] and
    [api.post(...)] are awaited; [getToken()] and
    [setupForegroundListener(...)] are plain calls, and [getToken()] is a
    [string | null].  An awaited promise is fulfilled, is rejected, or
    never settles; a plain call returns or throws. *)
Record World : Type := {
  Notification_requestPermission : Promise NotificationPermission;
  fcm_registerServiceWorker : Promise (option ServiceWorkerRegistration);
  fcm_initialize : Promise unit;
  fcm_getToken : Sync (option string);
  import_api : Promise unit;
  api_post : string -> DeviceBody -> Promise unit;
  fcm_setupForegroundListener : Sync unit
}.

(** ** Data of the notifier *)

(** The message the messaging client hands to the foreground callback
    ([MessagePayload] of the SDK): both parts and both texts are optional;
    [data] is a string-keyed object. *)
Module Payload.
Record Notification : Type := {
  title : option string;
  body : option string
}.
Record t : Type := {
  notification : option Notification;
  data : option (gmap string string)
}.
End Payload.

(** [NOTIFICATION_CHANNEL]. *)
Module Channel.
Record t : Type := {
  id : string;
  name : string;
  description : string;
  importance : string;
  badge : string;
  icon : string;
  vibrate : list nat;
  requireInteraction : bool
}.
End Channel.

Definition NOTIFICATION_CHANNEL : Channel.t := {|
  Channel.id := "africash_foreground";
  Channel.name := "africash_foreground";
  Channel.description := "All Africash notifications with high priority display";
  Channel.importance := "high";
  Channel.badge := "/placeholder-logo.png";
  Channel.icon := "/placeholder-logo.png";
  Channel.vibrate := [200; 100; 200]%nat;
  Channel.requireInteraction := false
|}.

(** The options object given to [new Notification(title, options)]. *)
Module Options.
Record t : Type := {
  body : string;
  icon : string;
  badge : string;
  tag : string;
  requireInteraction : bool;
  data : option (gmap string string);
  vibrate : list nat
}.
End Options.

(** The closure assigned to [notification.onclick]; it captures the [data]
    argument of [showNativeNotification] (and the notification itself). *)
Record ClickHandler : Type := { captured_data : option (gmap string string) }.

(** What the host answers while a foreground message is handled. *)
Record NotifierWorld : Type := {
  Notification_constructor : string -> Options.t -> Sync unit;
  Date_now : Z
}.

(** ** Events *)

Inductive Level : Type := Log | Warn | Error.

(** Values printed after the message of a console call. *)
Inductive LogArg : Type :=
| AString (s : string)
| AThrown (e : Thrown)
| ATokenInfo (token_preview : string) (full_token_length : nat)
| AMessage (title body : option string) (data : option (gmap string string))
| AErrorDetails (message : string) (stack : option string).

Inductive Capability : Type :=
| CapWindow            (* typeof window !== 'undefined' *)
| CapServiceWorker     (* 'serviceWorker' in navigator *)
| CapPushManager       (* 'PushManager' in window *)
| CapNotification      (* 'Notification' in window *)
| CapSecureContext.    (* window.isSecureContext *)

Inductive Event : Type :=
| Console (lvl : Level) (msg : string) (args : list LogArg)
  (* reads of browser globals *)
| Probe (c : Capability) (present : bool)
| ReadPermission (p : NotificationPermission)
  (* calls of the initializer, with how they ended *)
| RequestPermission (r : Promise NotificationPermission)
| RegisterServiceWorker (r : Promise (option ServiceWorkerRegistration))
| FcmInitialize (r : Promise unit)
| FcmGetToken (r : Sync (option string))
| ImportApi (r : Promise unit)
| ApiPost (url : string) (payload : DeviceBody) (r : Promise unit)
| SetupForegroundListener (r : Sync unit)
  (* calls of the notifier *)
| NewNotification (title : string) (options : Options.t) (r : Sync unit)
| SetOnclick (h : ClickHandler)
| PreventDefault
| WindowFocus
| WindowOpen (url target : string)
| NotificationClose.

(** The three kinds of event. *)
Inductive Kind : Type := Diagnostic | Read | Call.

Definition kind (e : Event) : Kind :=
  match e with
  | Console _ _ _ => Diagnostic
  | Probe _ _ | ReadPermission _ => Read
  | _ => Call
  end.

Definition is_call (e : Event) : bool :=
  match kind e with Call => true | _ => false end.
Definition is_read (e : Event) : bool :=
  match kind e with Read => true | _ => false end.

(** The collaborator calls of a trace, in order. *)
Definition calls (tr : list Event) : list Event := List.filter is_call tr.
Definition reads (tr : list Event) : list Event := List.filter is_read tr.

Definition is_requestPermission (e : Event) : bool :=
  match e with RequestPermission _ => true | _ => false end.
Definition is_registerServiceWorker (e : Event) : bool :=
  match e with RegisterServiceWorker _ => true | _ => false end.
Definition is_fcmInitialize (e : Event) : bool :=
  match e with FcmInitialize _ => true | _ => false end.
Definition is_fcmGetToken (e : Event) : bool :=
  match e with FcmGetToken _ => true | _ => false end.
Definition is_backendCall (e : Event) : bool :=
  match e with ImportApi _ | ApiPost _ _ _ => true | _ => false end.
Definition is_setupForegroundListener (e : Event) : bool :=
  match e with SetupForegroundListener _ => true | _ => false end.

(** [count f tr]: how many events of [tr] satisfy [f]. *)
Definition count (f : Event -> bool) (tr : list Event) : nat :=
  List.length (List.filter f tr).

(** ** Module state and the monad of function bodies *)

(** The module-level variables. *)
Record ModuleVars : Type := {
  isInitialized : bool;
  registrationToken : option string
}.

(** The state at module load. *)
Definition module_load : ModuleVars :=
  {| isInitialized := false; registrationToken := None |}.

(** How a statement ends: it falls through with a value, executes
    [return;], throws, or stops at an [await] that never settles. *)
Inductive Completion (A : Type) : Type :=
| Normal (a : A)
| Returned
| Threw (e : Thrown)
| Suspended.
Arguments Normal {A} a.
Arguments Returned {A}.
Arguments Threw {A} e.
Arguments Suspended {A}.

Definition M (A : Type) : Type :=
  ModuleVars -> Completion A * ModuleVars * list Event.

Definition ret {A} (a : A) : M A := fun s => (Normal a, s, []).

Definition bind {A B} (m : M A) (k : A -> M B) : M B := fun s =>
  match m s with
  | (Normal a, s1, t1) =>
      let '(c, s2, t2) := k a s1 in (c, s2, (t1 ++ t2)%list)
  | (Returned, s1, t1) => (Returned, s1, t1)
  | (Threw e, s1, t1) => (Threw e, s1, t1)
  | (Suspended, s1, t1) => (Suspended, s1, t1)
  end.

Declare Scope js_scope.
Delimit Scope js_scope with js.
Notation "x <- m ;; k" := (bind m (fun x => k))
  (at level 100, m at next level, right associativity) : js_scope.
Notation "m ;; k" := (bind m (fun _ => k))
  (at level 100, right associativity) : js_scope.
Local Open Scope js_scope.

Definition emit (e : Event) : M unit := fun s => (Normal tt, s, [e]).
Definition return_ {A} : M A := fun s => (Returned, s, []).
Definition throw {A} (e : Thrown) : M A := fun s => (Threw e, s, []).
Definition get_vars : M ModuleVars := fun s => (Normal s, s, []).
Definition set_isInitialized (b : bool) : M unit := fun s =>
  (Normal tt, {| isInitialized := b; registrationToken := registrationToken s |}, []).
Definition set_registrationToken (t : option string) : M unit := fun s =>
  (Normal tt, {| isInitialized := isInitialized s; registrationToken := t |}, []).

(** [if (c) { m }] *)
Definition when (c : bool) (m : M unit) : M unit := if c then m else ret tt.

(** [await p] *)
Definition await {A} (p : Promise A) : M A :=
  match p with
  | Fulfilled a => ret a
  | Rejected e => throw e
  | Pending => fun s => (Suspended, s, [])
  end.

(** The value of a synchronous call. *)
Definition complete {A} (r : Sync A) : M A :=
  match r with
  | Returns a => ret a
  | Throws e => throw e
  end.

(** [try { body } catch (error) { handler error }]: only a throw of
    [body] enters the handler; [return;] and a pending [await] pass. *)
Definition try_catch {A} (body : M A) (handler : Thrown -> M A) : M A := fun s =>
  match body s with
  | (Threw e, s1, t1) =>
      let '(c, s2, t2) := handler e s1 in (c, s2, (t1 ++ t2)%list)
  | r => r
  end.

(** Calling an [async function]: the body runs, and the caller gets the
    promise; a throw of the body rejects it, and nothing is thrown at the
    call. *)
Definition async (body : M unit) : M (Promise unit) := fun s =>
  match body s with
  | (Normal _, s1, t1) | (Returned, s1, t1) => (Normal (Fulfilled tt), s1, t1)
  | (Threw e, s1, t1) => (Normal (Rejected e), s1, t1)
  | (Suspended, s1, t1) => (Normal Pending, s1, t1)
  end.

(** Calling a [function (...): void]. *)
Definition function_void (body : M unit) : M unit := fun s =>
  match body s with
  | (Returned, s1, t1) => (Normal tt, s1, t1)
  | r => r
  end.

Definition console_log (msg : string) (args : list LogArg) : M unit :=
  emit (Console Log msg args).
Definition console_warn (msg : string) (args : list LogArg) : M unit :=
  emit (Console Warn msg args).
Definition console_error (msg : string) (args : list LogArg) : M unit :=
  emit (Console Error msg args).

(** ** Reads of browser globals *)

(** Naming a global that is not declared throws a ReferenceError. *)
Definition ReferenceError (global : string) : Thrown :=
  ErrorObject (global ++ " is not defined") None.

(** [typeof window === 'undefined'] *)
Definition typeof_window_undefined (env : Env) : M bool :=
  match window env with
  | None => emit (Probe CapWindow false) ;; ret true
  | Some _ => emit (Probe CapWindow true) ;; ret false
  end.

(** A test on a global, [window] or [navigator]: ['x' in window],
    ['x' in navigator], [window.isSecureContext].  Where the global is
    not declared, naming it throws. *)
Definition probe {G} (c : Capability) (global : option G) (name : string)
    (holds : G -> bool) : M bool :=
  match global with
  | Some g => emit (Probe c (holds g)) ;; ret (holds g)
  | None => throw (ReferenceError name)
  end.

Definition is_some {A} (o : option A) : bool :=
  match o with Some _ => true | None => false end.

Definition serviceWorker_in_navigator_ (env : Env) : M bool :=
  probe CapServiceWorker (navigator env) "navigator"
        serviceWorker_in_navigator.
Definition PushManager_in_window_ (env : Env) : M bool :=
  probe CapPushManager (window env) "window" PushManager_in_window.
Definition Notification_in_window (env : Env) : M bool :=
  probe CapNotification (window env) "window"
        (fun w => is_some (Notification_global w)).
Definition window_isSecureContext (env : Env) : M bool :=
  probe CapSecureContext (window env) "window" isSecureContext.

(** [navigator.userAgent] *)
Definition navigator_userAgent (env : Env) : M string :=
  match navigator env with
  | Some n => ret (userAgent n)
  | None => throw (ReferenceError "navigator")
  end.

(** [Notification.permission] *)
Definition Notification_permission (env : Env) : M NotificationPermission :=
  match window env with
  | Some w =>
      match Notification_global w with
      | Some p => emit (ReadPermission p) ;; ret p
      | None => throw (ReferenceError "Notification")
      end
  | None => throw (ReferenceError "Notification")
  end.

(** ** Collaborator calls *)

Definition call_async {A} (ev : Promise A -> Event) (p : Promise A) : M A :=
  emit (ev p) ;; await p.

Definition call_sync {A} (ev : Sync A -> Event) (r : Sync A) : M A :=
  emit (ev r) ;; complete r.

(** The narrowing of [if (token)] on a [string | null]: the branch is
    taken with the string when it is not empty. *)
Definition if_truthy (o : option string) : option string :=
  match o with
  | Some s => if truthy s then Some s else None
  | None => None
  end.

(** ** registerDeviceOnBackend (lines 32-50) *)

Definition registerDeviceOnBackend (world : World) (token : string)
    (type : string) : M (Promise unit) :=
  async (
    console_log ("[TEST LOG] Attempting to register device on backend for "
                 ++ type ++ " platform") [] ;;
    console_log ("[TEST LOG] Token length: "
                 ++ nat_to_string (String.length token)
                 ++ ", Token preview: " ++ substring0 30 token ++ "...") [] ;;
    try_catch (
      let url := "/mobcash/devices/" in
      let payload := {| registration_id := token; type_ := type |} in
      call_async ImportApi (import_api world) ;;
      call_async (ApiPost url payload) (api_post world url payload) ;;
      console_log "[TEST LOG] Device successfully registered on backend" []
    ) (fun error =>
      console_error "[TEST LOG] Error registering device on backend:"
                    [AThrown error])
  ).

(** ** showNativeNotification (lines 55-98) *)

Definition data_url (data : option (gmap string string)) : option string :=
  match data with
  | Some d => d !! "url"
  | None => None
  end.

(** The handler assigned to [notification.onclick] (lines 82-92). *)
Definition onclick (h : ClickHandler) : M unit :=
  function_void (
    emit PreventDefault ;;
    emit WindowFocus ;;
    match if_truthy (data_url (captured_data h)) with
    | Some url => emit (WindowOpen url "_blank")
    | None => ret tt
    end ;;
    emit NotificationClose
  ).

Definition showNativeNotification (env : Env) (host : NotifierWorld)
    (title body : string) (data : option (gmap string string)) : M unit :=
  function_void (
    undefined <- typeof_window_undefined env ;;
    unavailable <- (if undefined then ret true
                    else present <- Notification_in_window env ;;
                         ret (negb present)) ;;
    when unavailable (
      console_warn "[TEST LOG] Notification API not available" [] ;;
      return_) ;;
    permission <- Notification_permission env ;;
    when (negb (permission_eqb permission PermGranted)) (
      console_warn "[TEST LOG] Notification permission not granted" [] ;;
      return_) ;;
    try_catch (
      let options := {|
        Options.body := body;
        Options.icon := Channel.icon NOTIFICATION_CHANNEL;
        Options.badge := Channel.badge NOTIFICATION_CHANNEL;
        Options.tag := Channel.id NOTIFICATION_CHANNEL ++ "_"
                       ++ Z_to_string (Date_now host);
        Options.requireInteraction :=
          Channel.requireInteraction NOTIFICATION_CHANNEL;
        Options.data := data;
        Options.vibrate := Channel.vibrate NOTIFICATION_CHANNEL
      |} in
      call_sync (NewNotification title options)
                (Notification_constructor host title options) ;;
      emit (SetOnclick {| captured_data := data |}) ;;
      console_log "[TEST LOG] Native notification displayed successfully" []
    ) (fun error =>
      console_error "[TEST LOG] Error showing native notification:"
                    [AThrown error])
  ).

(** ** The foreground callback (lines 223-238) *)

Definition notification_title (payload : Payload.t) : option string :=
  match Payload.notification payload with
  | Some n => Payload.title n
  | None => None
  end.

Definition notification_body (payload : Payload.t) : option string :=
  match Payload.notification payload with
  | Some n => Payload.body n
  | None => None
  end.

Definition foregroundCallback (env : Env) (host : NotifierWorld)
    (payload : Payload.t) : M unit :=
  function_void (
    console_log
      "[TEST LOG] Push notification received while app in foreground:"
      [AMessage (notification_title payload) (notification_body payload)
                (Payload.data payload)] ;;
    let title := or_default (notification_title payload) "Notification" in
    let body := or_default (notification_body payload) EmptyString in
    showNativeNotification env host title body (Payload.data payload) ;;
    console_log
      "[TEST LOG] Foreground notification displayed with africash_foreground channel"
      []
  ).

(** ** initializePushNotifications (lines 108-257) *)

Definition error_message (error : Thrown) : string :=
  match error with
  | ErrorObject message _ => message
  | OtherValue _ => "Unknown error"
  end.

Definition error_stack (error : Thrown) : option string :=
  match error with
  | ErrorObject _ stack => stack
  | OtherValue _ => None
  end.

(** The body of the [try] block (lines 151-247). *)
Definition initialization_sequence (env : Env) (world : World) : M unit :=
  console_log "[TEST LOG] Checking current push notification permissions..." [] ;;
  current <- Notification_permission env ;;
  console_log "[TEST LOG] Current permission status:"
              [AString (permission_name current)] ;;
  permStatus <-
    (if permission_eqb current PermDefault then
       console_log "[TEST LOG] Requesting push notification permissions..." [] ;;
       answer <- call_async RequestPermission
                            (Notification_requestPermission world) ;;
       console_log "[TEST LOG] Permission request result:"
                   [AString (permission_name answer)] ;;
       ret answer
     else if permission_eqb current PermDenied then
       console_warn "[TEST LOG] Push notification permission denied by user." [] ;;
       console_warn "[TEST LOG] User can enable it in browser settings." [] ;;
       return_
     else if permission_eqb current PermGranted then
       console_log "[TEST LOG] Push notification permission already granted" [] ;;
       ret current
     else ret current) ;;
  when (negb (permission_eqb permStatus PermGranted)) (
    console_warn "[TEST LOG] Push notification permission not granted:"
                 [AString (permission_name permStatus)] ;;
    return_) ;;
  console_log "[TEST LOG] Push notification permission granted, setting up..." [] ;;
  console_log ("[TEST LOG] Configuring notification channel: "
               ++ Channel.id NOTIFICATION_CHANNEL) [] ;;
  console_log ("[TEST LOG] Channel name: "
               ++ Channel.name NOTIFICATION_CHANNEL) [] ;;
  console_log ("[TEST LOG] Channel description: "
               ++ Channel.description NOTIFICATION_CHANNEL) [] ;;
  console_log "[TEST LOG] Notification channel configured for web platform" [] ;;
  console_log "[TEST LOG] Registering service worker..." [] ;;
  swRegistration <- call_async RegisterServiceWorker
                               (fcm_registerServiceWorker world) ;;
  when (negb (is_some swRegistration)) (
    console_error
      "[TEST LOG] Service worker registration failed - cannot proceed" [] ;;
    return_) ;;
  console_log "[TEST LOG] Service worker registered successfully" [] ;;
  console_log "[TEST LOG] Initializing Firebase Cloud Messaging..." [] ;;
  call_async FcmInitialize (fcm_initialize world) ;;
  console_log "[TEST LOG] Firebase Cloud Messaging initialized" [] ;;
  console_log "[TEST LOG] Requesting FCM registration token..." [] ;;
  token <- call_sync FcmGetToken (fcm_getToken world) ;;
  match if_truthy token with
  | Some token =>
      console_log "[TEST LOG] FCM registration success! Token received:"
                  [ATokenInfo (substring0 30 token ++ "...")
                              (String.length token)] ;;
      set_registrationToken (Some token) ;;
      console_log
        "[TEST LOG] Platform detected: web, preparing to send token to backend..."
        [] ;;
      console_log
        "[TEST LOG] Device registration process starting for web platform" [] ;;
      registered <- registerDeviceOnBackend world token "web" ;;
      await registered
  | None =>
      console_error "[TEST LOG] Failed to get FCM token" [] ;;
      return_
  end ;;
  console_log "[TEST LOG] Setting up foreground message listener..." [] ;;
  call_sync SetupForegroundListener (fcm_setupForegroundListener world) ;;
  console_log "[TEST LOG] Foreground message listener configured" [] ;;
  set_isInitialized true ;;
  console_log
    "[TEST LOG] Push notifications initialization completed successfully!" [] ;;
  console_log ("[TEST LOG] Notification channel "
               ++ double_quote ++ Channel.id NOTIFICATION_CHANNEL
               ++ double_quote ++ " is active") [] ;;
  console_log "[TEST LOG] Ready to receive push notifications from FCM" [].

(** The [catch] block (lines 249-256). *)
Definition outer_boundary (error : Thrown) : M unit :=
  console_error "[TEST LOG] Error initializing push notifications:"
                [AThrown error] ;;
  console_error "[TEST LOG] Error details:"
                [AErrorDetails (error_message error) (error_stack error)].

Definition initializePushNotifications (env : Env) (world : World)
    : M (Promise unit) :=
  async (
    console_log "[TEST LOG] initializePushNotifications() called at:" [] ;;
    vars <- get_vars ;;
    when (isInitialized vars) (
      console_log
        "[TEST LOG] Push notifications already initialized, skipping..." [] ;;
      return_) ;;
    console_log "[TEST LOG] Checking platform compatibility..." [] ;;
    undefined <- typeof_window_undefined env ;;
    when undefined (
      console_log
        "[TEST LOG] Push notifications not available on server-side - exiting"
        [] ;;
      return_) ;;
    serviceWorker <- serviceWorker_in_navigator_ env ;;
    when (negb serviceWorker) (
      console_log
        "[TEST LOG] Service Worker not supported in this browser - exiting"
        [] ;;
      return_) ;;
    pushManager <- PushManager_in_window_ env ;;
    when (negb pushManager) (
      console_log "[TEST LOG] Push API not supported in this browser - exiting"
                  [] ;;
      return_) ;;
    notification <- Notification_in_window env ;;
    when (negb notification) (
      console_log
        "[TEST LOG] Notification API not supported in this browser - exiting"
        [] ;;
      return_) ;;
    secure <- window_isSecureContext env ;;
    when (negb secure) (
      console_log
        "[TEST LOG] Push notifications require HTTPS or localhost - exiting"
        [] ;;
      return_) ;;
    let platform := "web" in
    console_log ("[TEST LOG] Initializing push notifications on "
                 ++ platform ++ " platform") [] ;;
    userAgent <- navigator_userAgent env ;;
    console_log ("[TEST LOG] Platform: " ++ platform ++ ", Browser: "
                 ++ userAgent) [] ;;
    try_catch (initialization_sequence env world) outer_boundary
  ).

(** ** Accessors (lines 262-281) *)

Definition getPushToken : M (option string) :=
  vars <- get_vars ;; ret (registrationToken vars).

Definition isPushInitialized : M bool :=
  vars <- get_vars ;; ret (isInitialized vars).

Definition getPermissionStatus (env : Env) : M NotificationPermission :=
  undefined <- typeof_window_undefined env ;;
  unavailable <- (if undefined then ret true
                  else present <- Notification_in_window env ;;
                       ret (negb present)) ;;
  if unavailable then ret PermDenied
  else Notification_permission env.

(** ** Running a call *)

Definition completion {A} (r : Completion A * ModuleVars * list Event)
    : Completion A := fst (fst r).
Definition vars_after {A} (r : Completion A * ModuleVars * list Event)
    : ModuleVars := snd (fst r).
Definition trace {A} (r : Completion A * ModuleVars * list Event)
    : list Event := snd r.

(** The value a call returned, when it returned. *)
Definition value {A} (r : Completion A * ModuleVars * list Event)
    : option A :=
  match completion r with Normal a => Some a | _ => None end.

(** * Vocabulary of the properties *)

(** ** Which completions a body can have *)

Definition no_throw {A} (m : M A) : Prop :=
  forall s e, completion (m s) <> Threw e.

Definition no_suspend {A} (m : M A) : Prop :=
  forall s, completion (m s) <> Suspended.

(** A promise that has an outcome. *)
Definition settled {A} (p : Promise A) : Prop := p <> Pending.

(** Every promise the collaborators hand to the initializer has an
    outcome: it is fulfilled or it is rejected. *)
Definition every_call_settles (world : World) : Prop :=
  settled (Notification_requestPermission world)
  /\ settled (fcm_registerServiceWorker world)
  /\ settled (fcm_initialize world)
  /\ settled (import_api world)
  /\ forall url payload, settled (api_post world url payload).

(** [navigator] is declared wherever [window] is: every browser page
    (lib.dom declares both), and every host without [window]. *)
Definition navigator_with_window (env : Env) : Prop :=
  window env <> None -> navigator env <> None.

(** The exception a call ended with, if it ended with one. *)
Definition raised (ev : Event) : option Thrown :=
  match ev with
  | RequestPermission (Rejected e)
  | RegisterServiceWorker (Rejected e)
  | FcmInitialize (Rejected e)
  | FcmGetToken (Throws e)
  | ImportApi (Rejected e)
  | ApiPost _ _ (Rejected e)
  | SetupForegroundListener (Throws e)
  | NewNotification _ _ (Throws e) => Some e
  | _ => None
  end.

(** *** Queries on traces *)

(** The values [f] extracts from the events of a trace, in order. *)
Definition select {B} (f : Event -> option B) (tr : list Event) : list B :=
  omap f tr.

(** The events that ended with an exception, each with its exception. *)
Definition exceptions (tr : list Event) : list (Event * Thrown) :=
  select (fun ev => match raised ev with
                    | Some e => Some (ev, e)
                    | None => None
                    end) tr.

Definition permission_read (ev : Event) : option NotificationPermission :=
  match ev with ReadPermission p => Some p | _ => None end.

Definition permission_answer (ev : Event)
    : option (Promise NotificationPermission) :=
  match ev with RequestPermission r => Some r | _ => None end.

Definition registration_result (ev : Event)
    : option (Promise (option ServiceWorkerRegistration)) :=
  match ev with RegisterServiceWorker r => Some r | _ => None end.

Definition token_result (ev : Event) : option (Sync (option string)) :=
  match ev with FcmGetToken r => Some r | _ => None end.

Definition failed_probe (ev : Event) : option Capability :=
  match ev with Probe c false => Some c | _ => None end.

Definition backend_rejection (ev : Event) : option Thrown :=
  match ev with
  | ImportApi (Rejected e) | ApiPost _ _ (Rejected e) => Some e
  | _ => None
  end.

(** *** Where exceptions are logged *)

Definition registrar_error_log (e : Thrown) : Event :=
  Console Error "[TEST LOG] Error registering device on backend:" [AThrown e].

Definition caught_by_registrar (e : Thrown) (tr : list Event) : Prop :=
  In (registrar_error_log e) tr.

Definition caught_by_outer_boundary (e : Thrown) (tr : list Event) : Prop :=
  In (Console Error "[TEST LOG] Error initializing push notifications:"
              [AThrown e]) tr
  /\ In (Console Error "[TEST LOG] Error details:"
                 [AErrorDetails (error_message e) (error_stack e)]) tr.

(** A call of the api client is logged by the registrar, every other call
    by the [catch] of the initializer. *)
Definition caught_and_logged (ev : Event) (e : Thrown) (tr : list Event)
    : Prop :=
  if is_backendCall ev then caught_by_registrar e tr
  else caught_by_outer_boundary e tr.

(** ** Concrete hosts used by the examples *)

Definition browser : Navigator :=
  {| serviceWorker_in_navigator := true; userAgent := "Mozilla/5.0" |}.

Definition chrome (permission : NotificationPermission) : Env :=
  {| window := Some {| PushManager_in_window := true;
                       Notification_global := Some permission;
                       isSecureContext := true |};
     navigator := Some browser |}.

(** A server-side runtime with a [window] shim: [window] is declared with
    everything the module looks for, [navigator] is not. *)
Definition window_shim : Env :=
  {| window := Some {| PushManager_in_window := true;
                       Notification_global := Some PermGranted;
                       isSecureContext := true |};
     navigator := None |}.

Definition network_error : Thrown := ErrorObject "Network Error" None.

(** Every collaborator succeeds; the token is ["fcm-token-1"]. *)
Definition working_world : World := {|
  Notification_requestPermission := Fulfilled PermGranted;
  fcm_registerServiceWorker := Fulfilled (Some {| scope := "/" |});
  fcm_initialize := Fulfilled tt;
  fcm_getToken := Returns (Some "fcm-token-1");
  import_api := Fulfilled tt;
  api_post := fun _ _ => Fulfilled tt;
  fcm_setupForegroundListener := Returns tt
|}.

(** As [working_world], but the POST to the device registry is rejected. *)
Definition backend_down : World := {|
  Notification_requestPermission := Fulfilled PermGranted;
  fcm_registerServiceWorker := Fulfilled (Some {| scope := "/" |});
  fcm_initialize := Fulfilled tt;
  fcm_getToken := Returns (Some "fcm-token-1");
  import_api := Fulfilled tt;
  api_post := fun _ _ => Rejected network_error;
  fcm_setupForegroundListener := Returns tt
|}.

(** As [backend_down], and the messaging client also refuses the
    foreground subscription. *)
Definition listener_refused : World := {|
  Notification_requestPermission := Fulfilled PermGranted;
  fcm_registerServiceWorker := Fulfilled (Some {| scope := "/" |});
  fcm_initialize := Fulfilled tt;
  fcm_getToken := Returns (Some "fcm-token-1");
  import_api := Fulfilled tt;
  api_post := fun _ _ => Rejected network_error;
  fcm_setupForegroundListener :=
    Throws (ErrorObject "messaging/unsupported-browser" None)
|}.

(** The service-worker registration is rejected. *)
Definition worker_rejected : World := {|
  Notification_requestPermission := Fulfilled PermGranted;
  fcm_registerServiceWorker :=
    Rejected (ErrorObject "Failed to register a ServiceWorker" None);
  fcm_initialize := Fulfilled tt;
  fcm_getToken := Returns (Some "fcm-token-1");
  import_api := Fulfilled tt;
  api_post := fun _ _ => Fulfilled tt;
  fcm_setupForegroundListener := Returns tt
|}.

(** The service-worker registration resolves to [null]. *)
Definition worker_null : World := {|
  Notification_requestPermission := Fulfilled PermGranted;
  fcm_registerServiceWorker := Fulfilled None;
  fcm_initialize := Fulfilled tt;
  fcm_getToken := Returns (Some "fcm-token-1");
  import_api := Fulfilled tt;
  api_post := fun _ _ => Fulfilled tt;
  fcm_setupForegroundListener := Returns tt
|}.

(** The user dismisses the permission prompt. *)
Definition prompt_dismissed : World := {|
  Notification_requestPermission := Fulfilled PermDefault;
  fcm_registerServiceWorker := Fulfilled (Some {| scope := "/" |});
  fcm_initialize := Fulfilled tt;
  fcm_getToken := Returns (Some "fcm-token-1");
  import_api := Fulfilled tt;
  api_post := fun _ _ => Fulfilled tt;
  fcm_setupForegroundListener := Returns tt
|}.

(** ** C2: a call on an initialized module does nothing *)

(** What a call prints when the flag is already set. *)
Definition skipped : list Event :=
  [ Console Log "[TEST LOG] initializePushNotifications() called at:" [];
    Console Log "[TEST LOG] Push notifications already initialized, skipping..."
            [] ].

(** ** C3: when the flag is set *)

(** Reads and calls of a trace, without the console lines. *)
Definition observable (tr : list Event) : list Event :=
  List.filter (fun ev => match kind ev with Diagnostic => false | _ => true end)
              tr.

Definition capability_checks : list Event :=
  [ Probe CapWindow true; Probe CapServiceWorker true;
    Probe CapPushManager true; Probe CapNotification true;
    Probe CapSecureContext true ].

(** The two ways to a granted permission. *)
Inductive PermissionPath : Type := AlreadyGranted | GrantedOnRequest.

Definition permission_steps (p : PermissionPath) : list Event :=
  match p with
  | AlreadyGranted => [ReadPermission PermGranted]
  | GrantedOnRequest =>
      [ReadPermission PermDefault; RequestPermission (Fulfilled PermGranted)]
  end.

(** The ways a backend registration attempt ends: the import of the api
    client is rejected, or the POST is sent and is fulfilled or
    rejected. *)
Inductive BackendAttempt : Type :=
| ImportRejected (e : Thrown)
| PostFulfilled
| PostRejected (e : Thrown).

Definition backend_steps (token : string) (b : BackendAttempt) : list Event :=
  let post := ApiPost "/mobcash/devices/"
                      {| registration_id := token; type_ := "web" |} in
  match b with
  | ImportRejected e => [ImportApi (Rejected e)]
  | PostFulfilled => [ImportApi (Fulfilled tt); post (Fulfilled tt)]
  | PostRejected e => [ImportApi (Fulfilled tt); post (Rejected e)]
  end.

(** The full sequence: capability checks, granted permission, non-null
    registration, messaging-client initialization, non-empty token,
    backend registration attempt, listener setup. *)
Definition full_sequence (tr : list Event) : Prop :=
  exists permission registration token backend,
    token <> EmptyString
    /\ observable tr =
       (capability_checks ++ permission_steps permission
        ++ [ RegisterServiceWorker (Fulfilled (Some registration));
             FcmInitialize (Fulfilled tt);
             FcmGetToken (Returns (Some token)) ]
        ++ backend_steps token backend
        ++ [ SetupForegroundListener (Returns tt) ])%list.

(** The fatal abort paths. *)
Inductive fatal_abort (tr : list Event) : Prop :=
| missing_capability c :
    In (Probe c false) tr -> fatal_abort tr
| permission_denied :
    In (ReadPermission PermDenied) tr -> fatal_abort tr
| permission_not_granted answer :
    answer <> Fulfilled PermGranted ->
    In (RequestPermission answer) tr -> fatal_abort tr
| worker_registration_failed result :
    (forall registration, result <> Fulfilled (Some registration)) ->
    In (RegisterServiceWorker result) tr -> fatal_abort tr
| missing_token token :
    if_truthy token = None ->
    In (FcmGetToken (Returns token)) tr -> fatal_abort tr
| unexpected_exception e :
    caught_by_outer_boundary e tr -> fatal_abort tr.

Definition outer_boundary_log (ev : Event) : option Thrown :=
  match ev with
  | Console Error "[TEST LOG] Error initializing push notifications:"
            [AThrown e] => Some e
  | _ => None
  end.

(** What a trace shows of the abort paths. *)
Record AbortSigns : Type := {
  failed_probes : list Capability;
  permissions_read : list NotificationPermission;
  permission_answers : list (Promise NotificationPermission);
  registration_results : list (Promise (option ServiceWorkerRegistration));
  token_results : list (Sync (option string));
  boundary_logs : list Thrown
}.

Definition abort_signs (tr : list Event) : AbortSigns := {|
  failed_probes := select failed_probe tr;
  permissions_read := select permission_read tr;
  permission_answers := select permission_answer tr;
  registration_results := select registration_result tr;
  token_results := select token_result tr;
  boundary_logs := select outer_boundary_log tr
|}.

(** ** C6: a failed backend registration is not fatal *)

(** The events after the first one that satisfies [p]. *)
Fixpoint after (p : Event -> bool) (tr : list Event) : list Event :=
  match tr with
  | [] => []
  | ev :: rest => if p ev then rest else after p rest
  end.

Definition is_registrar_error_log (ev : Event) : bool :=
  match ev with
  | Console Error "[TEST LOG] Error registering device on backend:"
            [AThrown _] => true
  | _ => false
  end.

(** The import of the api client or the POST was rejected with [e]. *)
Definition backend_failed (e : Thrown) (tr : list Event) : Prop :=
  In (ImportApi (Rejected e)) tr
  \/ exists url payload, In (ApiPost url payload (Rejected e)) tr.

Definition listener_result (ev : Event) : option (Sync unit) :=
  match ev with SetupForegroundListener r => Some r | _ => None end.

(** ** C8: the foreground notifier *)

Definition desktop : NotifierWorld := {|
  Notification_constructor := fun _ _ => Returns tt;
  Date_now := 1770315796000
|}.

(** The message of the spec's example. *)
Definition sample_message : Payload.t := {|
  Payload.notification :=
    Some {| Payload.title := Some "T"; Payload.body := Some "B" |};
  Payload.data := Some {[ "url" := "https://example.com" ]}
|}.

(** A message whose title and url are present and empty. *)
Definition blank_message : Payload.t := {|
  Payload.notification :=
    Some {| Payload.title := Some EmptyString; Payload.body := Some "B" |};
  Payload.data := Some {[ "url" := EmptyString ]}
|}.

Definition constructed (ev : Event)
    : option (string * Options.t * Sync unit) :=
  match ev with
  | NewNotification title options r => Some (title, options, r)
  | _ => None
  end.

Definition constructed_title (ev : Event) : option string :=
  match ev with NewNotification title _ _ => Some title | _ => None end.

Definition is_newNotification (ev : Event) : bool :=
  match ev with NewNotification _ _ _ => true | _ => false end.

(** The handler [showNativeNotification] assigns for a message. *)
Definition click_handler (payload : Payload.t) : ClickHandler :=
  {| captured_data := Payload.data payload |}.

(** What a click does, given the [url] entry of the data. *)
Definition click_events (url : option string) : list Event :=
  ([PreventDefault; WindowFocus]
   ++ match url with
      | Some u => if truthy u then [WindowOpen u "_blank"] else []
      | None => []
      end
   ++ [NotificationClose])%list.

(** * Further vocabulary *)

(** ** The backend registrar *)

Definition is_apiPost (ev : Event) : bool :=
  match ev with ApiPost _ _ _ => true | _ => false end.

Definition posted (ev : Event) : option (string * DeviceBody * Promise unit) :=
  match ev with ApiPost url payload r => Some (url, payload, r) | _ => None end.

Definition posted_event (x : string * DeviceBody * Promise unit) : Event :=
  ApiPost (fst (fst x)) (snd (fst x)) (snd x).

Definition success_log : Event :=
  Console Log "[TEST LOG] Device successfully registered on backend" [].

Definition registrar_error (ev : Event) : option Thrown :=
  match ev with
  | Console Error "[TEST LOG] Error registering device on backend:"
            [AThrown e] => Some e
  | _ => None
  end.

Definition is_success_log (ev : Event) : option unit :=
  match ev with
  | Console Log "[TEST LOG] Device successfully registered on backend" [] =>
      Some tt
  | _ => None
  end.

(** ** The steps of the initializer *)

(** The collaborator a call event belongs to. *)
Inductive Step : Type :=
| StepRequestPermission
| StepRegisterServiceWorker
| StepFcmInitialize
| StepFcmGetToken
| StepImportApi
| StepApiPost
| StepSetupForegroundListener.

Definition step_of (ev : Event) : option Step :=
  match ev with
  | RequestPermission _ => Some StepRequestPermission
  | RegisterServiceWorker _ => Some StepRegisterServiceWorker
  | FcmInitialize _ => Some StepFcmInitialize
  | FcmGetToken _ => Some StepFcmGetToken
  | ImportApi _ => Some StepImportApi
  | ApiPost _ _ _ => Some StepApiPost
  | SetupForegroundListener _ => Some StepSetupForegroundListener
  | _ => None
  end.

(** The order of the steps in the source. *)
Definition sequence_order : list Step :=
  [ StepRequestPermission; StepRegisterServiceWorker; StepFcmInitialize;
    StepFcmGetToken; StepImportApi; StepApiPost;
    StepSetupForegroundListener ].

Definition initialize_result (ev : Event) : option (Promise unit) :=
  match ev with FcmInitialize r => Some r | _ => None end.

Definition import_result (ev : Event) : option (Promise unit) :=
  match ev with ImportApi r => Some r | _ => None end.

Definition probe_result (ev : Event) : option (Capability * bool) :=
  match ev with Probe c b => Some (c, b) | _ => None end.

Definition probe_event (x : Capability * bool) : Event :=
  Probe (fst x) (snd x).

(** The capability checks that passed. *)
Definition passed_probe (ev : Event) : option Event :=
  match ev with Probe c true => Some (Probe c true) | _ => None end.

(** A call that never settled. *)
Definition never_settled (ev : Event) : bool :=
  match ev with
  | RequestPermission Pending | RegisterServiceWorker Pending
  | FcmInitialize Pending | ImportApi Pending | ApiPost _ _ Pending => true
  | _ => false
  end.

Definition is_warning_or_error (ev : Event) : bool :=
  match ev with
  | Console Warn _ _ | Console Error _ _ => true
  | _ => false
  end.

(** ** What a host lets the initializer do *)

(** All five capability checks pass. *)
Definition capable (env : Env) : bool :=
  match window env, navigator env with
  | Some w, Some n =>
      serviceWorker_in_navigator n && PushManager_in_window w
      && is_some (Notification_global w) && isSecureContext w
  | _, _ => false
  end.

(** The permission is granted, already or on request. *)
Definition permission_obtained (env : Env) (world : World) : bool :=
  match window env with
  | Some w =>
      match Notification_global w with
      | Some PermGranted => true
      | Some PermDefault =>
          match Notification_requestPermission world with
          | Fulfilled PermGranted => true
          | _ => false
          end
      | _ => false
      end
  | None => false
  end.

(** The non-empty token the messaging client returns, if it does. *)
Definition token_of (world : World) : option string :=
  match fcm_getToken world with
  | Returns token => if_truthy token
  | Throws _ => None
  end.

(** The backend registration of [token] comes to an end: the import is
    rejected, or the POST is fulfilled or rejected. *)
Definition backend_settles (world : World) (token : string) : bool :=
  match import_api world with
  | Fulfilled _ =>
      match api_post world "/mobcash/devices/"
                     {| registration_id := token; type_ := "web" |} with
      | Pending => false
      | _ => true
      end
  | Rejected _ => true
  | Pending => false
  end.

Definition will_initialize (env : Env) (world : World) : bool :=
  capable env
  && permission_obtained env world
  && match fcm_registerServiceWorker world with
     | Fulfilled (Some _) => true
     | _ => false
     end
  && match fcm_initialize world with Fulfilled _ => true | _ => false end
  && match token_of world with
     | Some token => backend_settles world token
     | None => false
     end
  && match fcm_setupForegroundListener world with
     | Returns _ => true
     | Throws _ => false
     end.

(** ** Histories *)

(** The states the module variables can be in: the state at module load,
    and the state after any call of an exported function or of a callback
    the module hands to its host. *)
Inductive reachable : ModuleVars -> Prop :=
| at_module_load : reachable module_load
| after_initialize env world vars :
    reachable vars ->
    reachable (vars_after (initializePushNotifications env world vars))
| after_message env host payload vars :
    reachable vars ->
    reachable (vars_after (foregroundCallback env host payload vars))
| after_click h vars :
    reachable vars -> reachable (vars_after (onclick h vars))
| after_getPushToken vars :
    reachable vars -> reachable (vars_after (getPushToken vars))
| after_isPushInitialized vars :
    reachable vars -> reachable (vars_after (isPushInitialized vars))
| after_getPermissionStatus env vars :
    reachable vars -> reachable (vars_after (getPermissionStatus env vars)).

(** ** The notifier *)

(** A notification may be shown: [Notification] exists and the permission
    is granted when the message arrives. *)
Definition notifications_allowed (env : Env) : bool :=
  match window env with
  | Some w =>
      match Notification_global w with
      | Some PermGranted => true
      | _ => false
      end
  | None => false
  end.

Definition is_setOnclick (ev : Event) : bool :=
  match ev with SetOnclick _ => true | _ => false end.

Definition is_warning (ev : Event) : bool :=
  match ev with Console Warn _ _ => true | _ => false end.

Definition displayed_log : Event :=
  Console Log
    "[TEST LOG] Foreground notification displayed with africash_foreground channel"
    [].

Definition construction_error_log (e : Thrown) : Event :=
  Console Error "[TEST LOG] Error showing native notification:" [AThrown e].

(** ** Hosts of the examples *)

(** The page is not served over HTTPS. *)
Definition insecure_page : Env :=
  {| window := Some {| PushManager_in_window := true;
                       Notification_global := Some PermGranted;
                       isSecureContext := false |};
     navigator := Some browser |}.

(** As [working_world], but the POST never gets an answer. *)
Definition backend_hangs : World := {|
  Notification_requestPermission := Fulfilled PermGranted;
  fcm_registerServiceWorker := Fulfilled (Some {| scope := "/" |});
  fcm_initialize := Fulfilled tt;
  fcm_getToken := Returns (Some "fcm-token-1");
  import_api := Fulfilled tt;
  api_post := fun _ _ => Pending;
  fcm_setupForegroundListener := Returns tt
|}.

(** The [Notification] constructor throws (as on a platform that only
    allows notifications from a service worker). *)
Definition constructor_throws : NotifierWorld := {|
  Notification_constructor :=
    fun _ _ => Throws (ErrorObject "Illegal constructor" None);
  Date_now := 1770315796000
|}.

(** [desktop], one millisecond later. *)
Definition desktop_later : NotifierWorld := {|
  Notification_constructor := fun _ _ => Returns tt;
  Date_now := 1770315796001
|}.

(** * Properties *)

(** ** Which completions a body can have *)

Section Completions.
Context {A B : Type}.

Lemma bind_unfold (m : M A) (k : A -> M B) s :
  bind m k s =
  match m s with
  | (Normal a, s1, t1) =>
      let '(c, s2, t2) := k a s1 in (c, s2, (t1 ++ t2)%list)
  | (Returned, s1, t1) => (Returned, s1, t1)
  | (Threw e, s1, t1) => (Threw e, s1, t1)
  | (Suspended, s1, t1) => (Suspended, s1, t1)
  end.
Proof. reflexivity. Qed.

Lemma no_throw_bind (m : M A) (k : A -> M B) :
  no_throw m -> (forall a, no_throw (k a)) -> no_throw (bind m k).
Proof.
  intros Hm Hk s e. rewrite bind_unfold.
  destruct (m s) as [[c s1] t1] eqn:Em.
  destruct c as [a| |e'|]; cbn; try discriminate.
  - destruct (k a s1) as [[c2 s2] t2] eqn:Ek. cbn.
    intros ->. apply (Hk a s1 e). rewrite Ek. reflexivity.
  - intros [= <-]. apply (Hm s e'). rewrite Em. reflexivity.
Qed.

Lemma no_suspend_bind (m : M A) (k : A -> M B) :
  no_suspend m -> (forall a, no_suspend (k a)) -> no_suspend (bind m k).
Proof.
  intros Hm Hk s. rewrite bind_unfold.
  destruct (m s) as [[c s1] t1] eqn:Em.
  destruct c as [a| |e'|]; cbn; try discriminate.
  - destruct (k a s1) as [[c2 s2] t2] eqn:Ek. cbn.
    intros ->. apply (Hk a s1). rewrite Ek. reflexivity.
  - intros _. apply (Hm s). rewrite Em. reflexivity.
Qed.

(** A [try] whose handler cannot throw cannot throw, whatever its body
    does. *)
Lemma no_throw_try_catch (body : M A) (handler : Thrown -> M A) :
  (forall e, no_throw (handler e)) -> no_throw (try_catch body handler).
Proof.
  intros Hh s e. unfold try_catch.
  destruct (body s) as [[c s1] t1] eqn:Eb.
  destruct c as [a| |e'|]; cbn; try discriminate.
  destruct (handler e' s1) as [[c2 s2] t2] eqn:Eh. cbn.
  intros ->. apply (Hh e' s1 e). rewrite Eh. reflexivity.
Qed.

Lemma no_suspend_try_catch (body : M A) (handler : Thrown -> M A) :
  no_suspend body -> (forall e, no_suspend (handler e)) ->
  no_suspend (try_catch body handler).
Proof.
  intros Hb Hh s. unfold try_catch.
  destruct (body s) as [[c s1] t1] eqn:Eb.
  destruct c as [a| |e'|]; cbn; try discriminate.
  - destruct (handler e' s1) as [[c2 s2] t2] eqn:Eh. cbn.
    intros ->. apply (Hh e' s1). rewrite Eh. reflexivity.
  - intros _. apply (Hb s). rewrite Eb. reflexivity.
Qed.

Lemma no_throw_ret (a : A) : no_throw (ret a).
Proof. intros s e. discriminate. Qed.

Lemma no_suspend_ret (a : A) : no_suspend (ret a).
Proof. intros s. discriminate. Qed.

Lemma no_throw_return_ : no_throw (@return_ A).
Proof. intros s e. discriminate. Qed.

Lemma no_suspend_return_ : no_suspend (@return_ A).
Proof. intros s. discriminate. Qed.

Lemma no_suspend_throw e : no_suspend (@throw A e).
Proof. intros s. discriminate. Qed.

Lemma no_suspend_await (p : Promise A) : settled p -> no_suspend (await p).
Proof. intros Hp s. destruct p; cbn; try discriminate. now destruct Hp. Qed.

Lemma no_suspend_complete (r : Sync A) : no_suspend (complete r).
Proof. intros s. destruct r; discriminate. Qed.

End Completions.

Lemma no_throw_emit ev : no_throw (emit ev).
Proof. intros s e. discriminate. Qed.

Lemma no_suspend_emit ev : no_suspend (emit ev).
Proof. intros s. discriminate. Qed.

Lemma no_throw_get_vars : no_throw get_vars.
Proof. intros s e. discriminate. Qed.

Lemma no_suspend_get_vars : no_suspend get_vars.
Proof. intros s. discriminate. Qed.

Lemma no_suspend_set_registrationToken t : no_suspend (set_registrationToken t).
Proof. intros s. discriminate. Qed.

Lemma no_suspend_set_isInitialized b : no_suspend (set_isInitialized b).
Proof. intros s. discriminate. Qed.

(** Calling an async function completes normally, with a promise. *)
Lemma async_completes (body : M unit) s :
  exists p, completion (async body s) = Normal p.
Proof.
  unfold async. destruct (body s) as [[c s1] t1].
  destruct c; cbn; eauto.
Qed.

Lemma async_no_throw (body : M unit) : no_throw (async body).
Proof.
  intros s e. destruct (async_completes body s) as [p Hp].
  rewrite Hp. discriminate.
Qed.

(** The promise is rejected only by a throw of the body, and stays pending
    only when the body stops at an await. *)
Lemma async_fulfilled (body : M unit) :
  no_throw body -> no_suspend body ->
  forall s, completion (async body s) = Normal (Fulfilled tt).
Proof.
  intros Ht Hs s. unfold async.
  specialize (Ht s). specialize (Hs s).
  destruct (body s) as [[c s1] t1].
  destruct c as [[]| |e|]; cbn in *; try reflexivity.
  - now destruct (Ht e).
  - now destruct Hs.
Qed.

Lemma async_not_rejected (body : M unit) :
  no_throw body ->
  forall s e, completion (async body s) <> Normal (Rejected e).
Proof.
  intros Ht s e. unfold async. specialize (Ht s).
  destruct (body s) as [[c s1] t1].
  destruct c as [[]| |e'|]; cbn in *; try discriminate.
  now destruct (Ht e').
Qed.

Create HintDb js_completion.
#[local] Hint Resolve
  no_throw_ret no_throw_return_ no_throw_emit no_throw_get_vars
  no_throw_try_catch async_no_throw
  no_suspend_ret no_suspend_return_ no_suspend_emit no_suspend_get_vars
  no_suspend_throw no_suspend_complete no_suspend_await
  no_suspend_set_registrationToken no_suspend_set_isInitialized
  : js_completion.

(** Walks a body statement by statement. *)
Ltac walk :=
  repeat first
    [ progress intros
    | solve [ auto with js_completion ]
    | apply no_throw_bind
    | apply no_suspend_bind
    | apply no_suspend_try_catch
    | match goal with
      | |- no_throw (if ?c then _ else _) => destruct c
      | |- no_suspend (if ?c then _ else _) => destruct c
      | |- no_throw (match ?x with _ => _ end) => destruct x
      | |- no_suspend (match ?x with _ => _ end) => destruct x
      end ].

Lemma no_suspend_call_async {A} (ev : Promise A -> Event) (p : Promise A) :
  settled p -> no_suspend (call_async ev p).
Proof. intros Hp. unfold call_async. walk. Qed.

Lemma no_suspend_call_sync {A} (ev : Sync A -> Event) (r : Sync A) :
  no_suspend (call_sync ev r).
Proof. unfold call_sync. walk. Qed.

Lemma no_throw_typeof_window_undefined env :
  no_throw (typeof_window_undefined env).
Proof. unfold typeof_window_undefined. destruct (window env); walk. Qed.

Lemma no_suspend_typeof_window_undefined env :
  no_suspend (typeof_window_undefined env).
Proof. unfold typeof_window_undefined. destruct (window env); walk. Qed.

(** Where the global is declared, a test on it does not throw. *)
Lemma no_throw_probe {G} c (g : G) name holds :
  no_throw (probe c (Some g) name holds).
Proof. cbn. walk. Qed.

Lemma no_suspend_probe {G} c (global : option G) name holds :
  no_suspend (probe c global name holds).
Proof. destruct global; cbn; walk. Qed.

Lemma no_throw_navigator_userAgent w n :
  no_throw (navigator_userAgent {| window := w; navigator := Some n |}).
Proof. cbn. walk. Qed.

Lemma no_suspend_navigator_userAgent env : no_suspend (navigator_userAgent env).
Proof. unfold navigator_userAgent. destruct (navigator env); walk. Qed.

Lemma no_suspend_Notification_permission env :
  no_suspend (Notification_permission env).
Proof.
  unfold Notification_permission.
  destruct (window env) as [[? [?|] ?]|]; cbn; walk.
Qed.

#[local] Hint Resolve
  no_suspend_call_async no_suspend_call_sync
  no_throw_typeof_window_undefined no_suspend_typeof_window_undefined
  no_throw_probe no_suspend_probe
  no_throw_navigator_userAgent no_suspend_navigator_userAgent
  no_suspend_Notification_permission
  : js_completion.

(** *** The backend registrar swallows every failure *)

Lemma registerDeviceOnBackend_not_rejected world token type s e :
  completion (registerDeviceOnBackend world token type s)
  <> Normal (Rejected e).
Proof.
  unfold registerDeviceOnBackend. apply async_not_rejected.
  unfold console_log, console_error. walk.
Qed.

Lemma registerDeviceOnBackend_fulfilled world token type s :
  every_call_settles world ->
  completion (registerDeviceOnBackend world token type s)
  = Normal (Fulfilled tt).
Proof.
  intros (_ & _ & _ & Himport & Hpost).
  unfold registerDeviceOnBackend. apply async_fulfilled;
    unfold console_log, console_error; walk.
Qed.

(** Awaiting the registrar neither throws nor, when the api client
    settles, suspends. *)
Lemma await_registerDeviceOnBackend_no_suspend world token type :
  every_call_settles world ->
  no_suspend (registered <- registerDeviceOnBackend world token type ;;
              await registered).
Proof.
  intros Hw s. rewrite bind_unfold.
  pose proof (registerDeviceOnBackend_fulfilled world token type s Hw) as H.
  destruct (registerDeviceOnBackend world token type s) as [[c s1] t1].
  cbn in H. subst c. cbn. discriminate.
Qed.

Lemma registerDeviceOnBackend_completes world token type s :
  exists p, completion (registerDeviceOnBackend world token type s) = Normal p.
Proof. unfold registerDeviceOnBackend. apply async_completes. Qed.

Lemma await_registerDeviceOnBackend_no_throw world token type :
  no_throw (registered <- registerDeviceOnBackend world token type ;;
            await registered).
Proof.
  intros s e. rewrite bind_unfold.
  pose proof (registerDeviceOnBackend_not_rejected world token type s) as H.
  destruct (registerDeviceOnBackend_completes world token type s) as [p Hp].
  destruct (registerDeviceOnBackend world token type s) as [[c s1] t1].
  cbn in Hp, H. subst c.
  destruct p as [[]|e'|]; cbn; try discriminate.
  now destruct (H e').
Qed.

#[local] Hint Resolve
  await_registerDeviceOnBackend_no_suspend
  await_registerDeviceOnBackend_no_throw
  : js_completion.

(** *** The initializer *)

Lemma initialization_sequence_no_suspend env world :
  every_call_settles world ->
  no_suspend (initialization_sequence env world).
Proof.
  intros Hw. pose proof Hw as (Hrequest & Hregister & Hinit & _).
  unfold initialization_sequence, when, console_log, console_warn,
    console_error.
  walk.
Qed.

Lemma outer_boundary_no_throw error : no_throw (outer_boundary error).
Proof. unfold outer_boundary, console_error. walk. Qed.

Lemma outer_boundary_no_suspend error : no_suspend (outer_boundary error).
Proof. unfold outer_boundary, console_error. walk. Qed.

#[local] Hint Resolve
  initialization_sequence_no_suspend
  outer_boundary_no_throw outer_boundary_no_suspend
  : js_completion.

(** Where [navigator] is declared with [window], whatever the
    collaborators do, the promise of the initializer is not rejected (and
    the call itself does not throw). *)
Lemma initializePushNotifications_not_rejected env world vars e :
  navigator_with_window env ->
  completion (initializePushNotifications env world vars)
  <> Normal (Rejected e).
Proof.
  intros Hnav. destruct env as [[w|] [n|]].
  - unfold initializePushNotifications. apply async_not_rejected.
    unfold serviceWorker_in_navigator_, PushManager_in_window_,
      Notification_in_window, window_isSecureContext, when, console_log.
    cbn [window navigator]. walk.
  - now destruct Hnav.
  - destruct vars as [[] token]; discriminate.
  - destruct vars as [[] token]; discriminate.
Qed.

Lemma initializePushNotifications_fulfilled env world vars :
  navigator_with_window env ->
  every_call_settles world ->
  completion (initializePushNotifications env world vars)
  = Normal (Fulfilled tt).
Proof.
  intros Hnav Hw. destruct env as [[w|] [n|]].
  - unfold initializePushNotifications. apply async_fulfilled;
      unfold serviceWorker_in_navigator_, PushManager_in_window_,
        Notification_in_window, window_isSecureContext, when, console_log;
      cbn [window navigator]; walk.
  - now destruct Hnav.
  - destruct vars as [[] token]; reflexivity.
  - destruct vars as [[] token]; reflexivity.
Qed.

(** ** Exploring the runs of a call

    A call is evaluated up to the first test on something the host
    decides; the test is split, and the evaluation resumes.  Every run ends
    as an explicit completion, state and trace. *)

Ltac open_host :=
  repeat match goal with
  | world : World |- _ =>
      destruct world as [request register init getToken import post setup]
  | host : NotifierWorld |- _ => destruct host as [construct now]
  | env : Env |- _ =>
      destruct env as [[[hasPM [perm|] secure]|] [[hasSW ua]|]]
  | vars : ModuleVars |- _ => destruct vars as [initialized token0]
  end.

Ltac next_branch H :=
  match type of H with
  | context [match ?x with _ => _ end] => is_var x; destruct x
  | context [match ?f ?u ?b with _ => _ end] =>
      is_var f; destruct (f u b) eqn:?
  end.

Ltac reduce H :=
  cbv -[String.append String.length nat_to_string Z_to_string substring0
        or_default notification_title notification_body data_url] in H.

Ltac paths_of call :=
  let r := fresh "r" in
  let Hr := fresh "Hr" in
  remember call as r eqn:Hr in *;
  open_host; reduce Hr;
  repeat (next_branch Hr; reduce Hr);
  repeat match goal with u : unit |- _ => destruct u end;
  subst r; cbn [completion vars_after trace value fst snd] in *.

Ltac run_paths :=
  match goal with
  | |- context [initializePushNotifications ?env ?world ?vars] =>
      paths_of (initializePushNotifications env world vars)
  | H : context [initializePushNotifications ?env ?world ?vars] |- _ =>
      paths_of (initializePushNotifications env world vars)
  end.

(** Membership in an explicit list. *)
Ltac in_list := cbn; solve [ repeat first [ left; reflexivity | right ] ].

(** *** Queries on traces: what is in the trace is in the selection *)

Lemma select_In {B} (f : Event -> option B) ev b tr :
  In ev tr -> f ev = Some b -> In b (select f tr).
Proof.
  intros Hin Hf. apply list_elem_of_In, list_elem_of_omap.
  exists ev. split; [now apply list_elem_of_In | exact Hf].
Qed.


Lemma exceptions_In ev e tr :
  In ev tr -> raised ev = Some e -> In (ev, e) (exceptions tr).
Proof.
  intros Hin Hr. apply (select_In _ ev); [exact Hin | now rewrite Hr].
Qed.

(** *** Where exceptions are logged *)

Lemma raised_is_logged env world vars :
  let tr := trace (initializePushNotifications env world vars) in
  forall ev e, In ev tr -> raised ev = Some e -> caught_and_logged ev e tr.
Proof.
  intros tr ev e Hin Hraised.
  pose proof (exceptions_In ev e tr Hin Hraised) as H.
  clear Hin Hraised. subst tr.
  run_paths; vm_compute in H;
    repeat match goal with
    | H : _ \/ _ |- _ => destruct H as [H|H]
    | H : False |- _ => destruct H
    | H : (_, _) = (_, _) |- _ => injection H as <- <-
    end;
    unfold caught_and_logged, caught_by_registrar, caught_by_outer_boundary,
      registrar_error_log; cbn [is_backendCall];
    try split; in_list.
Qed.

(** ** Two runs *)

Example run_working :
  let r := initializePushNotifications (chrome PermDefault) working_world
                                       module_load in
  completion r = Normal (Fulfilled tt)
  /\ vars_after r = {| isInitialized := true;
                       registrationToken := Some "fcm-token-1" |}
  /\ List.filter is_call (trace r) =
     [ RequestPermission (Fulfilled PermGranted);
       RegisterServiceWorker (Fulfilled (Some {| scope := "/" |}));
       FcmInitialize (Fulfilled tt);
       FcmGetToken (Returns (Some "fcm-token-1"));
       ImportApi (Fulfilled tt);
       ApiPost "/mobcash/devices/"
               {| registration_id := "fcm-token-1"; type_ := "web" |}
               (Fulfilled tt);
       SetupForegroundListener (Returns tt) ].
Proof. repeat split. Qed.

Example run_worker_rejected :
  let r := initializePushNotifications (chrome PermGranted) worker_rejected
                                       module_load in
  completion r = Normal (Fulfilled tt)
  /\ vars_after r = module_load
  /\ calls (trace r) =
     [ RegisterServiceWorker
         (Rejected (ErrorObject "Failed to register a ServiceWorker" None)) ].
Proof. repeat split. Qed.

(** ** C1: the promise of the initializer resolves *)

(** C1, as stated, fails on a host that declares [window] but not
    [navigator]: the capability check ['serviceWorker' in navigator] is
    made before the [try] block, naming [navigator] throws a
    ReferenceError there, no [catch] sees it, and the returned promise is
    rejected, with nothing logged by the outer boundary. *)
Lemma initializePushNotifications_rejects_without_navigator :
  let r := initializePushNotifications window_shim working_world
                                       module_load in
  completion r = Normal (Rejected (ReferenceError "navigator"))
  /\ select outer_boundary_log (trace r) = []
  /\ trace r =
     [ Console Log "[TEST LOG] initializePushNotifications() called at:" [];
       Console Log "[TEST LOG] Checking platform compatibility..." [];
       Probe CapWindow true ].
Proof. repeat split. Qed.

(** The promise is rejected on those hosts only: exactly when the call
    starts with the flag unset on a host with [window] and without
    [navigator], and then with the ReferenceError of the first capability
    check on [navigator]. *)
Lemma initializePushNotifications_rejected_iff env world vars e :
  completion (initializePushNotifications env world vars)
  = Normal (Rejected e)
  <-> isInitialized vars = false
      /\ window env <> None /\ navigator env = None
      /\ e = ReferenceError "navigator".
Proof.
  run_paths; cbn [isInitialized window navigator];
    (split; [intros [=]; subst; repeat split; discriminate
            | intros (Hflag & Hwindow & Hnavigator & He);
              first [ discriminate
                    | now destruct Hwindow
                    | subst e; reflexivity ] ]).
Qed.

(** C1 (amended).  For every environment in which [navigator] is declared
    wherever [window] is (every browser page, and every host without
    [window]), every state of the module and every outcome of the
    collaborators (each promise they return settles, by fulfilment or by
    rejection; each synchronous call returns or throws), the promise
    returned by [initializePushNotifications] is fulfilled, never
    rejected; and, in every environment, every exception a collaborator
    call ended with is caught and logged: by the [catch] of the
    initializer (message, then message/stack details), or, for the two
    calls of the api client, by the [catch] of [registerDeviceOnBackend].
    ([initializePushNotifications_not_rejected] covers the hosts where a
    promise never settles: the promise is then not rejected either.) *)
Theorem initializePushNotifications_resolves env world vars :
  navigator_with_window env ->
  every_call_settles world ->
  let r := initializePushNotifications env world vars in
  completion r = Normal (Fulfilled tt)
  /\ (forall e, completion r <> Normal (Rejected e))
  /\ (forall e, completion r <> Threw e)
  /\ (forall ev e, In ev (trace r) -> raised ev = Some e ->
        caught_and_logged ev e (trace r)).
Proof.
  intros Hnav Hw r. subst r.
  pose proof (initializePushNotifications_fulfilled env world vars Hnav Hw)
    as H.
  split; [exact H|].
  split; [intros e; now apply initializePushNotifications_not_rejected|].
  split; [rewrite H; discriminate|].
  apply raised_is_logged.
Qed.

Lemma initializePushNotifications_resolves_witness :
  navigator_with_window (chrome PermGranted)
  /\ every_call_settles worker_rejected
  /\ completion (initializePushNotifications (chrome PermGranted)
                                             worker_rejected module_load)
     = Normal (Fulfilled tt).
Proof.
  assert (Hnav : navigator_with_window (chrome PermGranted)).
  { intros _. discriminate. }
  assert (H : every_call_settles worker_rejected).
  { unfold every_call_settles, settled; cbn.
    repeat split; intros; discriminate. }
  split; [exact Hnav|]. split; [exact H|].
  exact (proj1 (initializePushNotifications_resolves
                  (chrome PermGranted) worker_rejected module_load Hnav H)).
Defined.

(** ** C2: a call on an initialized module does nothing *)

Lemma initialized_run env world vars :
  isInitialized vars = true ->
  initializePushNotifications env world vars
  = (Normal (Fulfilled tt), vars, skipped).
Proof.
  destruct vars as [[] token]; [reflexivity | discriminate].
Qed.

(** C2.  When the flag is already true, a call returns at once: its
    promise is fulfilled, both module variables are unchanged, and the
    only events are the two console lines, so no capability is probed, no
    permission read or requested, no service worker registered, no token
    fetched and no backend call made; whatever the host is, the call is
    the same.  In particular a second call, made on the state a first call
    left with the flag set, is such a no-op. *)
Theorem initialized_call_is_noop env world vars :
  isInitialized vars = true ->
  let r := initializePushNotifications env world vars in
  completion r = Normal (Fulfilled tt)
  /\ vars_after r = vars
  /\ trace r = skipped
  /\ reads (trace r) = []
  /\ calls (trace r) = []
  /\ (forall env' world', initializePushNotifications env' world' vars = r)
  /\ (forall env2 world2,
        let r2 := initializePushNotifications env2 world2 (vars_after r) in
        completion r2 = Normal (Fulfilled tt)
        /\ vars_after r2 = vars_after r
        /\ reads (trace r2) = []
        /\ calls (trace r2) = []).
Proof.
  intros Hflag r. subst r.
  rewrite (initialized_run env world vars Hflag).
  cbn [completion vars_after trace fst snd].
  do 5 (split; [reflexivity|]). split.
  - intros env' world'. apply initialized_run, Hflag.
  - intros env2 world2.
    rewrite (initialized_run env2 world2 vars Hflag).
    repeat split; reflexivity.
Qed.

(** The second of two calls, after the first one succeeded. *)
Lemma initialized_call_is_noop_witness :
  let first := initializePushNotifications (chrome PermDefault) working_world
                                           module_load in
  isInitialized (vars_after first) = true
  /\ trace (initializePushNotifications (chrome PermDefault) working_world
                                        (vars_after first)) = skipped.
Proof.
  split; [reflexivity|].
  exact (proj1 (proj2 (proj2
    (initialized_call_is_noop
       (chrome PermDefault) working_world
       (vars_after (initializePushNotifications (chrome PermDefault)
                                                working_world module_load))
       eq_refl)))).
Defined.

(** ** C3: when the flag is set *)

Lemma fatal_abort_signs tr :
  fatal_abort tr ->
  let signs := abort_signs tr in
  failed_probes signs <> []
  \/ In PermDenied (permissions_read signs)
  \/ (exists answer, answer <> Fulfilled PermGranted
                     /\ In answer (permission_answers signs))
  \/ (exists result, (forall registration,
                        result <> Fulfilled (Some registration))
                     /\ In result (registration_results signs))
  \/ (exists token, if_truthy token = None
                    /\ In (Returns token) (token_results signs))
  \/ boundary_logs signs <> [].
Proof.
  intros [c H|H|answer Hn H|result Hn H|token Hn H|e [H _]]; cbn.
  - left. apply (select_In failed_probe _ c) in H; [|reflexivity].
    intros E. rewrite E in H. destruct H.
  - right; left. now apply (select_In permission_read _ PermDenied) in H.
  - do 2 right; left. exists answer. split; [exact Hn|].
    now apply (select_In permission_answer _ answer) in H.
  - do 3 right; left. exists result. split; [exact Hn|].
    now apply (select_In registration_result _ result) in H.
  - do 4 right; left. exists token. split; [exact Hn|].
    now apply (select_In token_result _ (Returns token)) in H.
  - do 5 right. apply (select_In outer_boundary_log _ e) in H; [|reflexivity].
    intros E. rewrite E in H. destruct H.
Qed.

Ltac split_hyps :=
  repeat match goal with
  | H : _ \/ _ |- _ => destruct H as [H|H]
  | H : exists _, _ |- _ => destruct H as [? H]
  | H : _ /\ _ |- _ => destruct H as [? H]
  | H : False |- _ => destruct H
  end.

Ltac refute :=
  exfalso; split_hyps; simplify_eq/=;
  solve [ congruence
        | discriminate
        | match goal with H : forall x, _ <> _ |- _ => eapply H; reflexivity end
        | match goal with H : ?x <> ?x |- _ => now destruct H end ].

Lemma flag_set_only_after_full_sequence env world vars :
  let r := initializePushNotifications env world vars in
  isInitialized vars = false ->
  isInitialized (vars_after r) = true ->
  full_sequence (trace r).
Proof.
  intros r Hbefore Hafter. subst r. unfold full_sequence.
  run_paths; cbn in Hbefore, Hafter; try discriminate;
    solve [
      (exists AlreadyGranted + exists GrantedOnRequest);
      eexists; eexists;
      (eexists (ImportRejected _) + exists PostFulfilled
       + eexists (PostRejected _));
      split; cycle 1; [reflexivity | discriminate] ].
Qed.

Lemma fatal_abort_leaves_flag_false env world vars :
  let r := initializePushNotifications env world vars in
  fatal_abort (trace r) -> isInitialized (vars_after r) = false.
Proof.
  intros r Habort. subst r. apply fatal_abort_signs in Habort.
  run_paths; cbn [isInitialized]; first [ reflexivity | cbn in Habort; refute ].
Qed.

(** A trace that is the full sequence ends with the listener setup. *)
Lemma full_sequence_ends_with_listener tr :
  full_sequence tr ->
  last (observable tr) = Some (SetupForegroundListener (Returns tt)).
Proof.
  intros (permission & registration & token & backend & _ & ->).
  rewrite !app_assoc. apply last_snoc.
Qed.

Lemma full_sequence_sets_flag env world vars :
  let r := initializePushNotifications env world vars in
  full_sequence (trace r) -> isInitialized (vars_after r) = true.
Proof.
  intros r H. subst r. apply full_sequence_ends_with_listener in H.
  run_paths; cbn [isInitialized];
    first [ reflexivity | vm_compute in H; discriminate ].
Qed.

(** C3.  A call that starts with the flag false ends with the flag true
    only if its trace is the full sequence: the five capability checks
    pass, the permission is granted (already, or on the one request), the
    service-worker registration resolves to a registration, the messaging
    client initializes, the token is a non-empty string, the backend
    registration is attempted, and the listener setup returns.  On every
    fatal abort path (a capability is missing, the permission reads denied,
    the request is not answered by granted, the worker registration does
    not resolve to a registration, the token is missing, or an exception
    reaches the catch of the initializer) the flag is false after the
    call.  Conversely a run whose trace is the full sequence sets the
    flag. *)
Theorem flag_true_iff_sequence_completed env world vars :
  let r := initializePushNotifications env world vars in
  (isInitialized vars = false -> isInitialized (vars_after r) = true ->
   full_sequence (trace r))
  /\ (fatal_abort (trace r) -> isInitialized (vars_after r) = false)
  /\ (full_sequence (trace r) -> isInitialized (vars_after r) = true).
Proof.
  split; [|split].
  - apply flag_set_only_after_full_sequence.
  - apply fatal_abort_leaves_flag_false.
  - apply full_sequence_sets_flag.
Qed.

Lemma flag_true_iff_sequence_completed_witness :
  let r := initializePushNotifications (chrome PermDefault) backend_down
                                       module_load in
  isInitialized (vars_after r) = true /\ full_sequence (trace r).
Proof.
  split; [reflexivity|].
  exact (proj1 (flag_true_iff_sequence_completed
                  (chrome PermDefault) backend_down module_load)
               eq_refl eq_refl).
Defined.

(** ** C4: a null registration stops the run *)

(** C4.  In every run in which [fcmService.registerServiceWorker()]
    resolves to null (or undefined), the messaging client is never
    initialized, no token is fetched, no backend call is made and no
    listener is set up: the registration is the last call of the run, the
    module variables are unchanged and the promise is fulfilled. *)
Theorem null_registration_aborts env world vars :
  let r := initializePushNotifications env world vars in
  In (RegisterServiceWorker (Fulfilled None)) (trace r) ->
  count is_fcmInitialize (trace r) = 0
  /\ count is_fcmGetToken (trace r) = 0
  /\ count is_backendCall (trace r) = 0
  /\ count is_setupForegroundListener (trace r) = 0
  /\ last (calls (trace r)) = Some (RegisterServiceWorker (Fulfilled None))
  /\ vars_after r = vars
  /\ completion r = Normal (Fulfilled tt).
Proof.
  intros r H. subst r.
  apply (select_In registration_result _ (Fulfilled None)) in H;
    [|reflexivity].
  run_paths; cbn in H; first [ refute | repeat split ].
Qed.

Lemma null_registration_aborts_witness :
  let r := initializePushNotifications (chrome PermGranted) worker_null
                                       module_load in
  In (RegisterServiceWorker (Fulfilled None)) (trace r)
  /\ count is_fcmInitialize (trace r) = 0.
Proof.
  assert (H : In (RegisterServiceWorker (Fulfilled None))
                 (trace (initializePushNotifications
                           (chrome PermGranted) worker_null module_load))).
  { in_list. }
  split; [exact H|].
  exact (proj1 (null_registration_aborts
                  (chrome PermGranted) worker_null module_load H)).
Defined.

(** ** C5: a denied permission stops the run *)

(** C5.  In every run in which [Notification.permission] reads denied, no
    collaborator is called at all: no permission request, no
    service-worker registration, no token fetch.  The run aborts with the
    module variables unchanged. *)
Theorem denied_permission_aborts env world vars :
  let r := initializePushNotifications env world vars in
  In (ReadPermission PermDenied) (trace r) ->
  count is_registerServiceWorker (trace r) = 0
  /\ count is_fcmGetToken (trace r) = 0
  /\ calls (trace r) = []
  /\ last (reads (trace r)) = Some (ReadPermission PermDenied)
  /\ vars_after r = vars
  /\ completion r = Normal (Fulfilled tt).
Proof.
  intros r H. subst r.
  apply (select_In permission_read _ PermDenied) in H; [|reflexivity].
  run_paths; cbn in H; first [ refute | repeat split ].
Qed.

Lemma denied_permission_aborts_witness :
  let r := initializePushNotifications (chrome PermDenied) working_world
                                       module_load in
  In (ReadPermission PermDenied) (trace r) /\ calls (trace r) = [].
Proof.
  assert (H : In (ReadPermission PermDenied)
                 (trace (initializePushNotifications
                           (chrome PermDenied) working_world module_load))).
  { in_list. }
  split; [exact H|].
  exact (proj1 (proj2 (proj2
    (denied_permission_aborts (chrome PermDenied) working_world module_load
                              H)))).
Defined.

(** ** C9: an undecided permission is requested once *)

(** C9.  In every run in which [Notification.permission] reads default,
    [Notification.requestPermission()] is called exactly once; its answer
    is the status the run goes on with: when it is granted the next call
    is the service-worker registration, and any other end of the request
    (default, denied, a rejection, no answer) leaves the request as the
    only call of the run, with the module variables unchanged. *)
Theorem default_permission_requests_once env world vars :
  let r := initializePushNotifications env world vars in
  let answer := Notification_requestPermission world in
  In (ReadPermission PermDefault) (trace r) ->
  count is_requestPermission (trace r) = 1
  /\ In (RequestPermission answer) (trace r)
  /\ (forall p, answer = Fulfilled p ->
        In (Console Log "[TEST LOG] Permission request result:"
                    [AString (permission_name p)]) (trace r))
  /\ (answer = Fulfilled PermGranted ->
        firstn 2 (calls (trace r)) =
        [ RequestPermission answer;
          RegisterServiceWorker (fcm_registerServiceWorker world) ])
  /\ (answer <> Fulfilled PermGranted ->
        calls (trace r) = [RequestPermission answer]
        /\ count is_registerServiceWorker (trace r) = 0
        /\ vars_after r = vars).
Proof.
  intros r answer H. subst r answer.
  apply (select_In permission_read _ PermDefault) in H; [|reflexivity].
  run_paths; cbn in H; try refute; clear H;
    cbn [Notification_requestPermission fcm_registerServiceWorker];
    (split; [reflexivity|]); (split; [in_list|]);
    (split; [first [intros p [= <-] | intros p [=]]; in_list|]);
    (split; [first [intros _; reflexivity | intros [=]]|]);
    solve [ intros _; repeat split | intros Hn; now destruct Hn ].
Qed.

Lemma default_permission_requests_once_witness :
  let r := initializePushNotifications (chrome PermDefault) prompt_dismissed
                                       module_load in
  In (ReadPermission PermDefault) (trace r)
  /\ count is_requestPermission (trace r) = 1.
Proof.
  assert (H : In (ReadPermission PermDefault)
                 (trace (initializePushNotifications
                           (chrome PermDefault) prompt_dismissed module_load))).
  { in_list. }
  split; [exact H|].
  exact (proj1 (default_permission_requests_once
                  (chrome PermDefault) prompt_dismissed module_load H)).
Defined.

(** ** C6: a failed backend registration is not fatal *)

Lemma backend_failed_select e tr :
  backend_failed e tr -> In e (select backend_rejection tr).
Proof.
  intros [H|(url & payload & H)];
    eapply select_In; try exact H; reflexivity.
Qed.

(** After a failed backend registration the run goes on as after a
    successful one: the error is logged by the registrar, the token stays
    cached, the listener setup is called next, and the flag ends true
    exactly when that call returns. *)
Lemma backend_failure_then_listener env world vars token e :
  let r := initializePushNotifications env world vars in
  In (FcmGetToken (Returns (Some token))) (trace r) ->
  backend_failed e (trace r) ->
  caught_by_registrar e (trace r)
  /\ In (SetupForegroundListener (fcm_setupForegroundListener world))
        (after is_registrar_error_log (trace r))
  /\ registrationToken (vars_after r) = Some token
  /\ (fcm_setupForegroundListener world = Returns tt <->
      isInitialized (vars_after r) = true)
  /\ completion r = Normal (Fulfilled tt).
Proof.
  intros r Htoken Hfailed. subst r.
  apply (select_In token_result _ (Returns (Some token))) in Htoken;
    [|reflexivity].
  apply backend_failed_select in Hfailed.
  run_paths; cbn in Htoken, Hfailed; try refute.
  all: split_hyps; simplify_eq.
  all: unfold caught_by_registrar, registrar_error_log;
    cbn [fcm_setupForegroundListener isInitialized registrationToken].
  all: (split; [in_list|]); (split; [in_list|]); (split; [reflexivity|]).
  all: split; [split; [reflexivity || discriminate | reflexivity || discriminate] | reflexivity].
Qed.

(** C6.  In every run in which a non-null token is retrieved and the
    backend registration fails (the import of the api client or the POST
    to /mobcash/devices/ is rejected), the messaging client accepting the
    foreground subscription as in any successful run, the failure is not
    fatal: the error is caught and logged inside
    [registerDeviceOnBackend], the foreground listener is still wired
    afterwards, [isPushInitialized()] is true after the run, the token
    stays cached and the promise is fulfilled. *)
Theorem backend_failure_is_not_fatal env world vars token e :
  let r := initializePushNotifications env world vars in
  In (FcmGetToken (Returns (Some token))) (trace r) ->
  backend_failed e (trace r) ->
  fcm_setupForegroundListener world = Returns tt ->
  caught_by_registrar e (trace r)
  /\ In (SetupForegroundListener (Returns tt))
        (after is_registrar_error_log (trace r))
  /\ isInitialized (vars_after r) = true
  /\ value (isPushInitialized (vars_after r)) = Some true
  /\ value (getPushToken (vars_after r)) = Some (Some token)
  /\ completion r = Normal (Fulfilled tt).
Proof.
  intros r Htoken Hfailed Hlistener.
  destruct (backend_failure_then_listener env world vars token e
              Htoken Hfailed) as (Hlogged & Hwired & Hcached & Hflag & Hdone).
  fold r in Hlogged, Hwired, Hcached, Hflag, Hdone.
  rewrite Hlistener in Hwired. apply Hflag in Hlistener.
  split; [exact Hlogged|]. split; [exact Hwired|].
  split; [exact Hlistener|].
  split; [cbn; now rewrite Hlistener|].
  split; [cbn; now rewrite Hcached|exact Hdone].
Qed.

Lemma backend_failure_is_not_fatal_witness :
  let r := initializePushNotifications (chrome PermGranted) backend_down
                                       module_load in
  In (FcmGetToken (Returns (Some "fcm-token-1"))) (trace r)
  /\ backend_failed network_error (trace r)
  /\ fcm_setupForegroundListener backend_down = Returns tt
  /\ isInitialized (vars_after r) = true.
Proof.
  assert (Htoken : In (FcmGetToken (Returns (Some "fcm-token-1")))
                      (trace (initializePushNotifications
                                (chrome PermGranted) backend_down module_load))).
  { in_list. }
  assert (Hfailed : backend_failed network_error
                      (trace (initializePushNotifications
                                (chrome PermGranted) backend_down module_load))).
  { right. eexists _, _. in_list. }
  split; [exact Htoken|]. split; [exact Hfailed|]. split; [reflexivity|].
  exact (proj1 (proj2 (proj2 (backend_failure_is_not_fatal
                  (chrome PermGranted) backend_down module_load
                  "fcm-token-1" network_error Htoken Hfailed eq_refl)))).
Defined.

(** ** C7: the cached token *)

(** [getPushToken] and [isPushInitialized] read the module variables and
    do nothing else. *)
Lemma getPushToken_reads vars :
  getPushToken vars = (Normal (registrationToken vars), vars, []).
Proof. reflexivity. Qed.

Lemma isPushInitialized_reads vars :
  isPushInitialized vars = (Normal (isInitialized vars), vars, []).
Proof. reflexivity. Qed.

(** C7, as stated, fails after a run that retrieves a token and then
    fails: no initialization has succeeded ([isPushInitialized()] is
    false), and [getPushToken()] returns the token, not null. *)
Lemma token_cached_by_failed_run :
  let r := initializePushNotifications (chrome PermGranted) listener_refused
                                       module_load in
  value (isPushInitialized (vars_after r)) = Some false
  /\ value (getPushToken (vars_after r)) = Some (Some "fcm-token-1").
Proof. split; reflexivity. Qed.

(** C7 (amended).  [getPushToken()] returns null at module load.  A run
    of the initializer in which [fcmService.getToken()] returns a
    non-empty string leaves [getPushToken()] returning exactly that
    string, whether or not the run then completes; any other run leaves
    what [getPushToken()] returns unchanged.  In particular, after a run
    that sets the flag, [getPushToken()] returns exactly the string
    [fcmService.getToken()] returned during that run. *)
Theorem getPushToken_returns_cached_token env world vars :
  let r := initializePushNotifications env world vars in
  value (getPushToken module_load) = Some None
  /\ (forall token,
        In (FcmGetToken (Returns (Some token))) (trace r) ->
        token <> EmptyString ->
        value (getPushToken (vars_after r)) = Some (Some token))
  /\ ((forall token,
         In (FcmGetToken (Returns (Some token))) (trace r) ->
         token = EmptyString) ->
      value (getPushToken (vars_after r)) = value (getPushToken vars))
  /\ (isInitialized vars = false -> isInitialized (vars_after r) = true ->
      exists token,
        fcm_getToken world = Returns (Some token)
        /\ value (getPushToken (vars_after r)) = Some (Some token)).
Proof.
  intros r. subst r. split; [reflexivity|].
  split; [|split].
  - intros token H Hne.
    apply (select_In token_result _ (Returns (Some token))) in H;
      [|reflexivity].
    run_paths; cbn in H; try refute;
      split_hyps; simplify_eq; reflexivity.
  - intros H.
    run_paths; try reflexivity;
      exfalso;
      match type of H with
      | context [FcmGetToken (Returns (Some (String ?a ?s)))] =>
          specialize (H (String a s) ltac:(in_list)); discriminate
      end.
  - intros Hbefore Hafter.
    run_paths; cbn in Hbefore, Hafter; try discriminate;
      eexists; split; reflexivity.
Qed.

Lemma getPushToken_returns_cached_token_witness :
  let r := initializePushNotifications (chrome PermDefault) working_world
                                       module_load in
  In (FcmGetToken (Returns (Some "fcm-token-1"))) (trace r)
  /\ value (getPushToken (vars_after r)) = Some (Some "fcm-token-1").
Proof.
  assert (H : In (FcmGetToken (Returns (Some "fcm-token-1")))
                 (trace (initializePushNotifications
                           (chrome PermDefault) working_world module_load))).
  { in_list. }
  split; [exact H|].
  refine (proj1 (proj2 (getPushToken_returns_cached_token
                          (chrome PermDefault) working_world module_load))
                "fcm-token-1" H _).
  discriminate.
Defined.

(** ** C8: the foreground notifier *)

Example sample_message_notification :
  let r := foregroundCallback (chrome PermGranted) desktop sample_message
                              module_load in
  select constructed (trace r) =
    [ ("T",
       {| Options.body := "B";
          Options.icon := "/placeholder-logo.png";
          Options.badge := "/placeholder-logo.png";
          Options.tag := "africash_foreground_1770315796000";
          Options.requireInteraction := false;
          Options.data := Payload.data sample_message;
          Options.vibrate := [200; 100; 200]%nat |},
       Returns tt) ]
  /\ In (SetOnclick (click_handler sample_message)) (trace r)
  /\ trace (onclick (click_handler sample_message) module_load) =
     [ PreventDefault; WindowFocus;
       WindowOpen "https://example.com" "_blank"; NotificationClose ].
Proof. cbn zeta. split; [reflexivity|]. split; [in_list|reflexivity]. Qed.

(** C8, as stated, fails on a title and a url that are present and empty:
    the notification is titled "Notification", not with the (empty) title
    of the message, and a click opens nothing although the url field is
    there. *)
Lemma blank_title_and_url_fall_back :
  let r := foregroundCallback (chrome PermGranted) desktop blank_message
                              module_load in
  notification_title blank_message = Some EmptyString
  /\ select constructed_title (trace r) = ["Notification"]
  /\ data_url (Payload.data blank_message) = Some EmptyString
  /\ In (SetOnclick (click_handler blank_message)) (trace r)
  /\ trace (onclick (click_handler blank_message) module_load) =
     [PreventDefault; WindowFocus; NotificationClose].
Proof.
  cbn zeta. do 3 (split; [reflexivity|]). split; [in_list|reflexivity].
Qed.

Lemma onclick_run h vars :
  onclick h vars = (Normal tt, vars, click_events (data_url (captured_data h))).
Proof.
  unfold onclick, click_events.
  destruct (data_url (captured_data h)) as [[|c u]|]; reflexivity.
Qed.

Lemma or_default_empty o : or_default o EmptyString = default EmptyString o.
Proof. destruct o as [[|c s]|]; reflexivity. Qed.

(** C8 (amended).  Whenever the foreground callback constructs a
    notification for a message: its title is the title of the message
    when that is present and not empty, and "Notification" when it is
    absent or empty; its body is the body of the message, or the empty
    string when absent; its tag is the channel id, an underscore and the
    current time in milliseconds; icon, badge, vibration and the
    interaction flag are those of the channel, and the data of the message
    is passed on.  When the constructor returns, the click handler is
    assigned; a click then prevents default handling, focuses the window,
    opens the url of the data in a new browsing context ("_blank") when
    that entry is present and not empty, and closes the notification, in
    this order; the handler does not throw. *)
Theorem foreground_notification env host payload vars title options result :
  let r := foregroundCallback env host payload vars in
  In (NewNotification title options result) (trace r) ->
  (forall t, notification_title payload = Some t -> t <> EmptyString ->
     title = t)
  /\ (notification_title payload = None
      \/ notification_title payload = Some EmptyString ->
      title = "Notification")
  /\ Options.body options = default EmptyString (notification_body payload)
  /\ Options.tag options
     = "africash_foreground" ++ "_" ++ Z_to_string (Date_now host)
  /\ Options.icon options = Channel.icon NOTIFICATION_CHANNEL
  /\ Options.badge options = Channel.badge NOTIFICATION_CHANNEL
  /\ Options.vibrate options = Channel.vibrate NOTIFICATION_CHANNEL
  /\ Options.requireInteraction options
     = Channel.requireInteraction NOTIFICATION_CHANNEL
  /\ Options.data options = Payload.data payload
  /\ count is_newNotification (trace r) = 1
  /\ (result = Returns tt -> In (SetOnclick (click_handler payload)) (trace r))
  /\ (forall s,
        onclick (click_handler payload) s
        = (Normal tt, s,
           click_events (data_url (Payload.data payload)))).
Proof.
  intros r H. subst r.
  apply (select_In constructed _ (title, options, result)) in H;
    [|reflexivity].
  paths_of (foregroundCallback env host payload vars);
    cbn in H; try refute; split_hyps; simplify_eq;
    cbn [Options.body Options.tag Options.icon Options.badge
         Options.vibrate Options.requireInteraction Options.data Date_now].
  all: (split; [intros t -> Hne; destruct t; [now destruct Hne | reflexivity]|]).
  all: (split; [intros [-> | ->]; reflexivity|]).
  all: (split; [apply or_default_empty|]).
  all: do 7 (split; [reflexivity|]).
  all: (split; [first [intros _; in_list | intros [=]]|]).
  all: intros s; apply onclick_run.
Qed.

Lemma foreground_notification_witness :
  let r := foregroundCallback (chrome PermGranted) desktop sample_message
                              module_load in
  In (NewNotification "T"
        {| Options.body := "B";
           Options.icon := "/placeholder-logo.png";
           Options.badge := "/placeholder-logo.png";
           Options.tag := "africash_foreground_1770315796000";
           Options.requireInteraction := false;
           Options.data := Payload.data sample_message;
           Options.vibrate := [200; 100; 200]%nat |}
        (Returns tt)) (trace r)
  /\ count is_newNotification (trace r) = 1.
Proof.
  assert (H : In (NewNotification "T"
        {| Options.body := "B";
           Options.icon := "/placeholder-logo.png";
           Options.badge := "/placeholder-logo.png";
           Options.tag := "africash_foreground_1770315796000";
           Options.requireInteraction := false;
           Options.data := Payload.data sample_message;
           Options.vibrate := [200; 100; 200]%nat |}
        (Returns tt))
        (trace (foregroundCallback (chrome PermGranted) desktop
                                   sample_message module_load))).
  { in_list. }
  split; [exact H|].
  exact (proj1 (proj2 (proj2 (proj2 (proj2 (proj2 (proj2 (proj2 (proj2 (proj2
    (foreground_notification (chrome PermGranted) desktop sample_message
                             module_load _ _ _ H))))))))))).
Defined.

(** Where the permission is granted and the constructor returns, a
    notification is constructed for every message, and the callback
    returns normally. *)
Lemma foreground_notification_is_constructed w n host payload vars :
  Notification_global w = Some PermGranted ->
  (forall title options,
     Notification_constructor host title options = Returns tt) ->
  let r := foregroundCallback {| window := Some w; navigator := n |}
                              host payload vars in
  count is_newNotification (trace r) = 1
  /\ completion r = Normal tt
  /\ vars_after r = vars.
Proof.
  intros Hgranted Hconstructor r. subst r.
  destruct w as [hasPM notification secure].
  cbn in Hgranted. subst notification.
  cbv -[String.append Z_to_string or_default notification_title
        notification_body Notification_constructor].
  rewrite Hconstructor. repeat split.
Qed.

(** The callback never throws. *)
Lemma foregroundCallback_no_throw env host payload :
  no_throw (foregroundCallback env host payload).
Proof.
  intros vars e.
  paths_of (foregroundCallback env host payload vars); discriminate.
Qed.

(** ** C10: the permission status is read live *)

Example getPermissionStatus_server :
  getPermissionStatus {| window := None; navigator := None |} module_load
  = (Normal PermDenied, module_load, [Probe CapWindow false]).
Proof. reflexivity. Qed.

Example getPermissionStatus_granted :
  getPermissionStatus (chrome PermGranted) module_load
  = (Normal PermGranted, module_load,
     [Probe CapWindow true; Probe CapNotification true;
      ReadPermission PermGranted]).
Proof. reflexivity. Qed.

Lemma getPermissionStatus_ignores_state env vars vars' :
  value (getPermissionStatus env vars) = value (getPermissionStatus env vars').
Proof. destruct env as [[[hasPM [p|] secure]|] n]; reflexivity. Qed.

(** The status follows the browser across calls: whatever a run of the
    initializer did in between, the next read is the live value. *)
Lemma getPermissionStatus_after_run env world vars env' :
  value (getPermissionStatus env'
           (vars_after (initializePushNotifications env world vars)))
  = value (getPermissionStatus env' vars).
Proof. apply getPermissionStatus_ignores_state. Qed.

(** C10.  [getPermissionStatus()] returns denied when [window] is
    undefined or has no [Notification]; otherwise it returns the
    permission [Notification.permission] holds at the time of the call.
    It never throws, writes no module variable, prints nothing and calls
    nothing (its only events are the reads themselves), and its result
    does not depend on the module state: nothing is cached. *)
Theorem getPermissionStatus_is_live env vars :
  let r := getPermissionStatus env vars in
  (window env = None
   \/ (exists w, window env = Some w /\ Notification_global w = None) ->
   value r = Some PermDenied)
  /\ (forall w p, window env = Some w -> Notification_global w = Some p ->
        value r = Some p)
  /\ vars_after r = vars
  /\ forallb is_read (trace r) = true
  /\ calls (trace r) = []
  /\ (forall vars', value (getPermissionStatus env vars') = value r).
Proof.
  intros r. subst r.
  destruct env as [[[hasPM [p|] secure]|] n]; cbn.
  - split; [intros [[=]|(w & [= <-] & [=])]|].
    split; [intros w q [= <-] [= <-]; reflexivity|].
    repeat split.
  - split; [reflexivity|].
    split; [intros w q [= <-] [=]|].
    repeat split.
  - split; [reflexivity|].
    split; [intros w q [=]|].
    repeat split.
Qed.

Lemma getPermissionStatus_is_live_witness :
  Notification_global
    {| PushManager_in_window := true; Notification_global := None;
       isSecureContext := true |} = None
  /\ value (getPermissionStatus
              {| window := Some {| PushManager_in_window := true;
                                   Notification_global := None;
                                   isSecureContext := true |};
                 navigator := Some browser |} module_load)
     = Some PermDenied.
Proof.
  split; [reflexivity|].
  refine (proj1 (getPermissionStatus_is_live _ module_load) _).
  right. eexists. split; reflexivity.
Defined.

(** * Further properties *)

(** ** Tools *)

(** What is in the selection by [f] is in the trace, when [f] selects one
    kind of event and keeps all of it. *)
Lemma select_In_back {B} (f : Event -> option B) (g : B -> Event) b tr :
  (forall ev, f ev = Some b -> ev = g b) ->
  In b (select f tr) -> In (g b) tr.
Proof.
  intros Hg H. apply list_elem_of_In, list_elem_of_omap in H.
  destruct H as (ev & Hin & Hf). apply Hg in Hf. subst ev.
  now apply list_elem_of_In.
Qed.

Ltac inverse_of_selection :=
  let ev := fresh "ev" in
  intros ev; destruct ev; cbn; try discriminate;
  repeat match goal with
         | |- context [match ?x with _ => _ end] => destruct x
         end;
  cbn; try discriminate; intros [= <-]; reflexivity.

Lemma permission_read_inv p ev :
  permission_read ev = Some p -> ev = ReadPermission p.
Proof. revert ev. inverse_of_selection. Qed.

Lemma permission_answer_inv r ev :
  permission_answer ev = Some r -> ev = RequestPermission r.
Proof. revert ev. inverse_of_selection. Qed.

Lemma registration_result_inv r ev :
  registration_result ev = Some r -> ev = RegisterServiceWorker r.
Proof. revert ev. inverse_of_selection. Qed.

Lemma initialize_result_inv r ev :
  initialize_result ev = Some r -> ev = FcmInitialize r.
Proof. revert ev. inverse_of_selection. Qed.

Lemma token_result_inv r ev :
  token_result ev = Some r -> ev = FcmGetToken r.
Proof. revert ev. inverse_of_selection. Qed.

Lemma import_result_inv r ev :
  import_result ev = Some r -> ev = ImportApi r.
Proof. revert ev. inverse_of_selection. Qed.

Lemma posted_inv x ev : posted ev = Some x -> ev = posted_event x.
Proof. revert ev. inverse_of_selection. Qed.

Lemma listener_result_inv r ev :
  listener_result ev = Some r -> ev = SetupForegroundListener r.
Proof. revert ev. inverse_of_selection. Qed.

Lemma probe_result_inv x ev : probe_result ev = Some x -> ev = probe_event x.
Proof. revert ev. inverse_of_selection. Qed.

(** As [paths_of], with the trace of each run kept under a name, so that
    it is written once. *)
Ltac paths_named call :=
  let r := fresh "r" in
  let Hr := fresh "Hr" in
  remember call as r eqn:Hr in *;
  open_host; reduce Hr;
  repeat (next_branch Hr; reduce Hr);
  repeat match goal with u : unit |- _ => destruct u end;
  match type of Hr with
  | _ = (_, _, ?t) => let tr := fresh "tr" in set (tr := t) in Hr
  end;
  subst r; cbn [completion vars_after trace value fst snd] in *.

Ltac run_named :=
  match goal with
  | |- context [initializePushNotifications ?env ?world ?vars] =>
      paths_named (initializePushNotifications env world vars)
  | H : context [initializePushNotifications ?env ?world ?vars] |- _ =>
      paths_named (initializePushNotifications env world vars)
  end.

(** Membership in a short explicit list. *)
Ltac member := solve [ repeat first [ left; reflexivity | right ] ].

(** Membership of an event in a trace, through its selection. *)
Ltac found :=
  lazymatch goal with
  | |- In (ReadPermission ?p) _ =>
      apply (select_In_back permission_read ReadPermission p _
               (permission_read_inv p))
  | |- In (RequestPermission ?r) _ =>
      apply (select_In_back permission_answer RequestPermission r _
               (permission_answer_inv r))
  | |- In (RegisterServiceWorker ?r) _ =>
      apply (select_In_back registration_result RegisterServiceWorker r _
               (registration_result_inv r))
  | |- In (FcmInitialize ?r) _ =>
      apply (select_In_back initialize_result FcmInitialize r _
               (initialize_result_inv r))
  | |- In (FcmGetToken ?r) _ =>
      apply (select_In_back token_result FcmGetToken r _
               (token_result_inv r))
  | |- In (ImportApi ?r) _ =>
      apply (select_In_back import_result ImportApi r _
               (import_result_inv r))
  | |- In (ApiPost ?u ?b ?r) _ =>
      apply (select_In_back posted posted_event (u, b, r) _
               (posted_inv (u, b, r)))
  | |- In (SetupForegroundListener ?r) _ =>
      apply (select_In_back listener_result SetupForegroundListener r _
               (listener_result_inv r))
  | |- In (Probe ?c ?b) _ =>
      apply (select_In_back probe_result probe_event (c, b) _
               (probe_result_inv (c, b)))
  end;
  vm_compute; member.

(** Turns [H : In ev tr] into membership of [x] in the selection by [f],
    and evaluates it. *)
Ltac selected H f x :=
  apply (select_In f _ x) in H; [|reflexivity]; vm_compute in H.

(** Closes a goal whose hypothesis [H] puts a value in a short list it is
    not in. *)
Ltac none H :=
  solve [ repeat (destruct H as [H|H]; [discriminate H|]); destruct H ].

Ltac all_checks :=
  unfold capability_checks;
  repeat (apply List.Forall_cons; [found|]); apply List.Forall_nil.

Ltac subsequence :=
  repeat first [ apply sublist_nil | apply sublist_skip | apply sublist_cons ].

(** ** The backend registrar *)

(** X1.  [registerDeviceOnBackend] never rejects and never touches the
    module variables.  It imports the api client first and posts only when
    the import is fulfilled, once, to /mobcash/devices/ with the token and
    the platform type it was given.  It logs an error exactly when the
    import or the POST is rejected (with the rejection), and logs success
    exactly when the POST is fulfilled. *)
Theorem registerDeviceOnBackend_contract world token type vars :
  let r := registerDeviceOnBackend world token type vars in
  let url := "/mobcash/devices/" in
  let payload := {| registration_id := token; type_ := type |} in
  (exists p, completion r = Normal p /\ forall e, p <> Rejected e)
  /\ vars_after r = vars
  /\ calls (trace r) =
     match import_api world with
     | Fulfilled _ =>
         [ImportApi (import_api world);
          ApiPost url payload (api_post world url payload)]
     | _ => [ImportApi (import_api world)]
     end
  /\ (forall e, caught_by_registrar e (trace r) <->
        import_api world = Rejected e
        \/ (import_api world = Fulfilled tt
            /\ api_post world url payload = Rejected e))
  /\ (In success_log (trace r) <->
        import_api world = Fulfilled tt
        /\ api_post world url payload = Fulfilled tt).
Proof.
  intros r url payload. subst r url payload.
  paths_of (registerDeviceOnBackend world token type vars).
  all: cbn [import_api api_post].
  all: try rewrite Heqp.
  all: (split; [eexists; split; [reflexivity|discriminate]|]).
  all: (split; [reflexivity|]); (split; [reflexivity|]).
  all: split; [intros e'|]; (split; [intros H|intros H]).
  all: try (selected H registrar_error e').
  all: try (selected H is_success_log tt).
  all: solve [ refute
             | split_hyps; simplify_eq; auto
             | split_hyps; simplify_eq;
               unfold caught_by_registrar, registrar_error_log, success_log;
               in_list ].
Qed.

(** ** The steps of the initializer *)

(** X2.  A run of the initializer posts at most once, and what it posts
    is what it caches: the POST goes to /mobcash/devices/ with type web
    and, as registration id, the non-empty string
    [fcmService.getToken()] returned, which is then the cached token. *)
Theorem posted_token_is_cached_token env world vars :
  let r := initializePushNotifications env world vars in
  count is_apiPost (trace r) <= 1
  /\ (forall url payload result,
        In (ApiPost url payload result) (trace r) ->
        url = "/mobcash/devices/"
        /\ type_ payload = "web"
        /\ registration_id payload <> EmptyString
        /\ fcm_getToken world = Returns (Some (registration_id payload))
        /\ registrationToken (vars_after r)
           = Some (registration_id payload)
        /\ result = api_post world url payload).
Proof.
  intros r. subst r.
  run_named.
  all: (split; [vm_compute; lia|]).
  all: intros url payload result H;
    selected H posted (url, payload, result);
    first [ refute | split_hyps; simplify_eq ].
  all: cbn [type_ registration_id fcm_getToken registrationToken api_post];
    repeat split; first [ discriminate | congruence ].
Qed.

(** X3.  In every run each collaborator is called at most once, and the
    calls come in the order of the source: permission request,
    service-worker registration, messaging-client initialization, token,
    import of the api client, POST, listener setup. *)
Theorem steps_in_order_at_most_once env world vars :
  let r := initializePushNotifications env world vars in
  sublist (select step_of (trace r)) sequence_order.
Proof.
  intros r. subst r.
  run_named.
  all: vm_compute; subsequence.
Qed.

(** X4.  No step is taken before the one it depends on succeeded: the
    permission is read only after the five capability checks passed; it
    is requested only when it read default; the service worker is
    registered only with the permission granted; the messaging client is
    initialized only after the registration resolved to a registration;
    the token is fetched only after the initialization was fulfilled; the
    api client is imported only after a non-empty token was returned; the
    POST is sent only after the import was fulfilled; and the listener is
    set up only after the backend registration came to an end. *)
Theorem each_step_follows_success env world vars :
  let tr := trace (initializePushNotifications env world vars) in
  (forall p, In (ReadPermission p) tr ->
     Forall (fun check => In check tr) capability_checks)
  /\ (forall r, In (RequestPermission r) tr ->
        In (ReadPermission PermDefault) tr)
  /\ (forall r, In (RegisterServiceWorker r) tr ->
        In (ReadPermission PermGranted) tr
        \/ In (RequestPermission (Fulfilled PermGranted)) tr)
  /\ (forall r, In (FcmInitialize r) tr ->
        exists registration,
          In (RegisterServiceWorker (Fulfilled (Some registration))) tr)
  /\ (forall r, In (FcmGetToken r) tr -> In (FcmInitialize (Fulfilled tt)) tr)
  /\ (forall r, In (ImportApi r) tr ->
        exists token,
          token <> EmptyString
          /\ In (FcmGetToken (Returns (Some token))) tr)
  /\ (forall url payload r, In (ApiPost url payload r) tr ->
        In (ImportApi (Fulfilled tt)) tr)
  /\ (forall r, In (SetupForegroundListener r) tr ->
        (exists e, In (ImportApi (Rejected e)) tr)
        \/ (exists url payload answer,
              answer <> Pending /\ In (ApiPost url payload answer) tr)).
Proof.
  intros tr. subst tr.
  run_named.
  all: (split; [intros p H; selected H permission_read p;
                first [ none H | all_checks ]|]).
  all: (split; [intros r H; selected H step_of StepRequestPermission;
                first [ none H | found ]|]).
  all: (split; [intros r H; selected H step_of StepRegisterServiceWorker;
                first [ none H | left; found | right; found ]|]).
  all: (split; [intros r H; selected H step_of StepFcmInitialize;
                first [ none H | eexists; found ]|]).
  all: (split; [intros r H; selected H step_of StepFcmGetToken;
                first [ none H | found ]|]).
  all: (split; [intros r H; selected H step_of StepImportApi;
                first [ none H
                      | eexists; split; cycle 1; [found | discriminate] ]|]).
  all: (split; [intros url payload r H; selected H step_of StepApiPost;
                first [ none H | found ]|]).
  all: intros r H; selected H step_of StepSetupForegroundListener;
    first [ none H
          | left; eexists; found
          | right; eexists _, _, _; split; cycle 1; [found | discriminate] ].
Qed.

(** ** What a host lets the initializer do *)

(** X5.  Whether a call made with the flag unset sets it is decided by the
    host alone, not by what earlier attempts left behind: the flag ends
    true exactly when the five capabilities are there, the permission is
    granted (already or on request), the registration resolves to a
    registration, the messaging client initializes, the token is a
    non-empty string, the backend registration comes to an end (fulfilled
    or rejected), and the listener setup returns.  The promise is then
    fulfilled and the cached token is the one returned. *)
Theorem initialization_depends_on_host_only env world vars :
  isInitialized vars = false ->
  let r := initializePushNotifications env world vars in
  isInitialized (vars_after r) = will_initialize env world
  /\ (will_initialize env world = true ->
      completion r = Normal (Fulfilled tt)
      /\ registrationToken (vars_after r) = token_of world).
Proof.
  intros Hflag r. subst r.
  run_named; cbn in Hflag; try discriminate; clear Hflag.
  all: unfold will_initialize, capable, permission_obtained, token_of,
         backend_settles;
       cbn -[tr]; try rewrite Heqp; cbn -[tr].
  all: split; [reflexivity | first [ discriminate | intros _; split; reflexivity ]].
Qed.

(** A failed attempt can be retried: the state a run left with the flag
    unset (here with a token cached by a run whose listener setup threw)
    does not keep a later run on a working host from succeeding. *)
Lemma initialization_depends_on_host_only_witness :
  let failed := vars_after (initializePushNotifications
                              (chrome PermGranted) listener_refused
                              module_load) in
  isInitialized failed = false
  /\ isInitialized (vars_after (initializePushNotifications
                                  (chrome PermGranted) working_world failed))
     = true.
Proof.
  split; [reflexivity|].
  exact (proj1 (initialization_depends_on_host_only
                  (chrome PermGranted) working_world
                  (vars_after (initializePushNotifications
                                 (chrome PermGranted) listener_refused
                                 module_load))
                  eq_refl)).
Defined.

(** ** How the module variables change *)

(** A run leaves the module variables as they were, or, started with the
    flag unset, caches the non-empty token the messaging client returned
    (and may set the flag). *)
Lemma run_changes_state env world vars :
  let r := initializePushNotifications env world vars in
  vars_after r = vars
  \/ (isInitialized vars = false
      /\ exists token flag,
           token <> EmptyString
           /\ fcm_getToken world = Returns (Some token)
           /\ vars_after r = {| isInitialized := flag;
                                registrationToken := Some token |}).
Proof.
  intros r. subst r.
  run_named;
    first [ left; reflexivity
          | right; split; [reflexivity|];
            eexists _, _; split; cycle 1;
            [split; reflexivity | discriminate] ].
Qed.

Lemma foregroundCallback_keeps_state env host payload vars :
  vars_after (foregroundCallback env host payload vars) = vars.
Proof.
  paths_of (foregroundCallback env host payload vars); reflexivity.
Qed.

Lemma onclick_keeps_state (h : ClickHandler) (vars : ModuleVars) :
  vars_after (onclick h vars) = vars.
Proof. rewrite onclick_run. reflexivity. Qed.

Lemma getPermissionStatus_keeps_state env vars :
  vars_after (getPermissionStatus env vars) = vars.
Proof. destruct env as [[[hasPM [p|] secure]|] n]; reflexivity. Qed.

(** X6.  No run of the initializer resets the flag or clears the cached
    token: a flag that is true stays true, a token that is cached stays
    cached (or is replaced by a newly returned one). *)
Theorem flag_and_token_are_never_reset env world vars :
  let r := initializePushNotifications env world vars in
  (isInitialized vars = true -> isInitialized (vars_after r) = true)
  /\ (forall token, registrationToken vars = Some token ->
        registrationToken (vars_after r) = Some token
        \/ exists token',
             fcm_getToken world = Returns (Some token')
             /\ registrationToken (vars_after r) = Some token').
Proof.
  intros r. subst r.
  destruct (run_changes_state env world vars)
    as [->|(Hflag & token' & flag & _ & Htoken & ->)].
  - split; [tauto|]. intros token H. now left.
  - split; [rewrite Hflag; discriminate|].
    intros token _. right. exists token'. split; [exact Htoken|reflexivity].
Qed.

(** X7.  Along every history of calls from module load (runs of the
    initializer on any hosts, foreground messages, clicks, reads of the
    accessors), whenever [isPushInitialized()] is true [getPushToken()]
    returns a non-empty token. *)
Theorem initialized_implies_token vars :
  reachable vars ->
  isInitialized vars = true ->
  exists token,
    token <> EmptyString
    /\ value (getPushToken vars) = Some (Some token).
Proof.
  induction 1 as [|env world vars _ IH|env host payload vars _ IH
                  |h vars _ IH|vars _ IH|vars _ IH|env vars _ IH].
  - discriminate.
  - destruct (run_changes_state env world vars)
      as [->|(_ & token & flag & Hne & _ & ->)].
    + exact IH.
    + intros _. exists token. split; [exact Hne|reflexivity].
  - now rewrite foregroundCallback_keeps_state.
  - now rewrite onclick_keeps_state.
  - exact IH.
  - exact IH.
  - now rewrite getPermissionStatus_keeps_state.
Qed.

Lemma initialized_implies_token_witness :
  let vars := vars_after (initializePushNotifications
                            (chrome PermDefault) working_world module_load) in
  reachable vars
  /\ isInitialized vars = true
  /\ exists token,
       token <> EmptyString /\ value (getPushToken vars) = Some (Some token).
Proof.
  assert (H : reachable (vars_after (initializePushNotifications
                                       (chrome PermDefault) working_world
                                       module_load))).
  { apply after_initialize, at_module_load. }
  split; [exact H|]. split; [reflexivity|].
  exact (initialized_implies_token _ H eq_refl).
Defined.

(** ** Aborts *)

(** X8.  A missing capability stops the run at the failed check: the
    checks come in the order window, service worker, push manager,
    notification, secure context, the failed one is the last read of the
    run, the permission is not read, no collaborator is called, the only
    output is console.log lines (no warning, no error), the module
    variables are unchanged and the promise is fulfilled. *)
Theorem missing_capability_stops_at_the_check env world vars c :
  let r := initializePushNotifications env world vars in
  In (Probe c false) (trace r) ->
  last (reads (trace r)) = Some (Probe c false)
  /\ prefix (select passed_probe (trace r)) capability_checks
  /\ select permission_read (trace r) = []
  /\ calls (trace r) = []
  /\ count is_warning_or_error (trace r) = 0
  /\ vars_after r = vars
  /\ completion r = Normal (Fulfilled tt).
Proof.
  intros r H. subst r.
  apply (select_In failed_probe _ c) in H; [|reflexivity].
  run_named; vm_compute in H; first [ none H | split_hyps; subst c ].
  all: vm_compute.
  all: (split; [reflexivity|]).
  all: (split; [eexists; reflexivity|]).
  all: repeat split.
Qed.

Lemma missing_capability_stops_at_the_check_witness :
  let r := initializePushNotifications insecure_page working_world
                                       module_load in
  In (Probe CapSecureContext false) (trace r)
  /\ calls (trace r) = [].
Proof.
  assert (H : In (Probe CapSecureContext false)
                 (trace (initializePushNotifications
                           insecure_page working_world module_load))).
  { in_list. }
  split; [exact H|].
  exact (proj1 (proj2 (proj2 (proj2
    (missing_capability_stops_at_the_check
       insecure_page working_world module_load CapSecureContext H))))).
Defined.

(** X9.  A step that never settles stalls the run there: the returned
    promise stays pending exactly when some call of the run never
    settled; that call is then the last thing the run does besides
    console output (no later step is taken, no timeout is armed), and the
    flag is not set. *)
Theorem hung_step_stalls_the_run env world vars :
  let r := initializePushNotifications env world vars in
  (completion r = Normal Pending <-> existsb never_settled (trace r) = true)
  /\ (existsb never_settled (trace r) = true ->
      (exists ev, last (observable (trace r)) = Some ev
                  /\ never_settled ev = true)
      /\ isInitialized (vars_after r) = false).
Proof.
  intros r. subst r.
  run_named.
  all: vm_compute.
  all: split; [split; first [ reflexivity | discriminate ]|].
  all: first [ discriminate
             | intros _; split; [eexists; split; reflexivity | reflexivity] ].
Qed.

(** ** Error reports *)

Lemma exceptions_In_back ev e tr :
  In (ev, e) (exceptions tr) -> In ev tr /\ raised ev = Some e.
Proof.
  intros H. apply list_elem_of_In, list_elem_of_omap in H.
  destruct H as (ev' & Hin & Hf).
  destruct (raised ev') as [e'|] eqn:E; [|discriminate].
  injection Hf as <- <-. split; [now apply list_elem_of_In | exact E].
Qed.

Lemma error_logs_come_from_exceptions env world vars :
  let tr := trace (initializePushNotifications env world vars) in
  length (select outer_boundary_log tr) <= 1
  /\ (forall e,
        In (Console Error "[TEST LOG] Error initializing push notifications:"
                    [AThrown e]) tr ->
        exists ev, In (ev, e) (exceptions tr) /\ is_backendCall ev = false)
  /\ (forall e,
        caught_by_registrar e tr ->
        exists ev, In (ev, e) (exceptions tr) /\ is_backendCall ev = true).
Proof.
  intros tr0. subst tr0.
  run_named.
  all: (split; [vm_compute; lia|]).
  all: split; intros e' H;
    [ selected H outer_boundary_log e' | selected H registrar_error e' ];
    first [ none H
          | split_hyps; subst e'; vm_compute;
            solve [ eexists; split; [left; reflexivity | reflexivity]
                  | eexists; split; [right; left; reflexivity | reflexivity] ] ].
Qed.

(** X10.  The error lines of a run report real failures only: the catch of
    the initializer prints "Error initializing push notifications" with
    an error only if a collaborator call other than the api client ended
    with that error, and does so at most once per run; the registrar
    prints "Error registering device on backend" with an error only if
    the import or the POST was rejected with it. *)
Theorem error_logs_report_raised_exceptions env world vars :
  let tr := trace (initializePushNotifications env world vars) in
  length (select outer_boundary_log tr) <= 1
  /\ (forall e,
        In (Console Error "[TEST LOG] Error initializing push notifications:"
                    [AThrown e]) tr ->
        exists ev,
          In ev tr /\ raised ev = Some e /\ is_backendCall ev = false)
  /\ (forall e,
        caught_by_registrar e tr ->
        exists ev,
          In ev tr /\ raised ev = Some e /\ is_backendCall ev = true).
Proof.
  intros tr.
  destruct (error_logs_come_from_exceptions env world vars)
    as (Hone & Houter & Hinner).
  split; [exact Hone|].
  split; intros e H; [apply Houter in H | apply Hinner in H];
    destruct H as (ev & Hin & Hkind);
    apply exceptions_In_back in Hin as [Hin Hraised];
    exists ev; auto.
Qed.

(** ** The notifier *)

(** X11.  The foreground callback is safe to hand to the messaging client:
    for every message, host and state it returns normally (it never
    throws), it leaves the module variables unchanged, and it calls the
    [Notification] constructor exactly once when [Notification] exists and
    the permission is granted at that time, and not at all otherwise, in
    which case it prints one warning.  The closing line "Foreground
    notification displayed" is printed in every case, also when nothing
    was shown. *)
Theorem foregroundCallback_is_safe env host payload vars :
  let r := foregroundCallback env host payload vars in
  completion r = Normal tt
  /\ vars_after r = vars
  /\ count is_newNotification (trace r)
     = (if notifications_allowed env then 1 else 0)
  /\ count is_warning (trace r)
     = (if notifications_allowed env then 0 else 1)
  /\ count is_setOnclick (trace r) <= count is_newNotification (trace r)
  /\ last (trace r) = Some displayed_log.
Proof.
  intros r. subst r.
  paths_of (foregroundCallback env host payload vars);
    vm_compute; repeat split; lia.
Qed.

(** X12.  When the [Notification] constructor throws, the failure stays
    inside [showNativeNotification]: the error is printed with its
    message, no click handler is assigned, and the callback still returns
    normally with the module variables unchanged. *)
Theorem failed_construction_is_contained
    env host payload vars title options e :
  let r := foregroundCallback env host payload vars in
  In (NewNotification title options (Throws e)) (trace r) ->
  In (construction_error_log e) (trace r)
  /\ count is_setOnclick (trace r) = 0
  /\ completion r = Normal tt
  /\ vars_after r = vars.
Proof.
  intros r H. subst r.
  apply (select_In constructed _ (title, options, Throws e)) in H;
    [|reflexivity].
  paths_of (foregroundCallback env host payload vars);
    cbn in H; first [ none H | split_hyps; simplify_eq ].
  all: split; [unfold construction_error_log; in_list | repeat split].
Qed.

Lemma failed_construction_is_contained_witness :
  let r := foregroundCallback (chrome PermGranted) constructor_throws
                              sample_message module_load in
  count is_newNotification (trace r) = 1
  /\ In (construction_error_log (ErrorObject "Illegal constructor" None))
        (trace r).
Proof.
  split; [reflexivity|].
  refine (proj1 (failed_construction_is_contained
                   (chrome PermGranted) constructor_throws sample_message
                   module_load "T" _ _ _)).
  in_list.
Defined.

(** *** Tags *)

Lemma Z_to_string_inj a b : Z_to_string a = Z_to_string b -> a = b.
Proof.
  unfold Z_to_string. intros H.
  assert (Hint : forall z, NilZero.int_of_string
                             (NilZero.string_of_int (Z.to_int z))
                           = Some (Z.to_int z)).
  { intros z. apply NilZero.isi.
    - destruct z as [|p|p]; cbn; try discriminate.
      intros [= Hp]. now apply (DecimalPos.Unsigned.to_uint_nonnil p).
    - destruct z as [|p|p]; cbn; try discriminate.
      intros [= Hp]. now apply (DecimalPos.Unsigned.to_uint_nonnil p). }
  apply DecimalZ.to_int_inj.
  pose proof (Hint a) as Ha. rewrite H, Hint in Ha. now injection Ha.
Qed.

Lemma constructed_tag env host payload vars title options result :
  In (NewNotification title options result)
     (trace (foregroundCallback env host payload vars)) ->
  Options.tag options
  = "africash_foreground_" ++ Z_to_string (Date_now host).
Proof.
  intros H.
  apply (select_In constructed _ (title, options, result)) in H;
    [|reflexivity].
  paths_of (foregroundCallback env host payload vars);
    cbn in H; first [ none H | split_hyps; simplify_eq ]; reflexivity.
Qed.

(** X13.  Two notifications the callback constructs carry the same tag
    exactly when they were constructed in the same millisecond: messages
    handled at different times never share a tag, and two messages handled
    within one millisecond do. *)
Theorem tags_equal_iff_same_millisecond
    env1 host1 payload1 vars1 title1 options1 result1
    env2 host2 payload2 vars2 title2 options2 result2 :
  In (NewNotification title1 options1 result1)
     (trace (foregroundCallback env1 host1 payload1 vars1)) ->
  In (NewNotification title2 options2 result2)
     (trace (foregroundCallback env2 host2 payload2 vars2)) ->
  (Options.tag options1 = Options.tag options2
   <-> Date_now host1 = Date_now host2).
Proof.
  intros H1 H2.
  rewrite (constructed_tag _ _ _ _ _ _ _ H1),
          (constructed_tag _ _ _ _ _ _ _ H2).
  split.
  - intros H. apply Z_to_string_inj.
    cbn in H. now simplify_eq.
  - now intros ->.
Qed.

Lemma tags_equal_iff_same_millisecond_witness :
  exists options1 options2,
    In (NewNotification "T" options1 (Returns tt))
       (trace (foregroundCallback (chrome PermGranted) desktop
                                  sample_message module_load))
    /\ In (NewNotification "Notification" options2 (Returns tt))
          (trace (foregroundCallback (chrome PermGranted) desktop_later
                                     blank_message module_load))
    /\ (Options.tag options1 = Options.tag options2
        <-> Date_now desktop = Date_now desktop_later).
Proof.
  eassert (H1 : In (NewNotification "T" _ (Returns tt))
                   (trace (foregroundCallback (chrome PermGranted) desktop
                                              sample_message module_load)))
    by (do 4 right; left; reflexivity).
  eassert (H2 : In (NewNotification "Notification" _ (Returns tt))
                   (trace (foregroundCallback (chrome PermGranted)
                             desktop_later blank_message module_load)))
    by (do 4 right; left; reflexivity).
  eexists _, _. split; [exact H1|]. split; [exact H2|].
  exact (tags_equal_iff_same_millisecond _ _ _ _ _ _ _ _ _ _ _ _ _ _ H1 H2).
Defined.
